(** * executionbackup: node health tracking and request routing

    A shallow embedding of [executionbackup/main.py]: the [NodeInstance]
    and [NodeRouter] classes, with the Python effects written out.

    - Exceptions and mutation: a state-and-exception monad [Py].  A raised
      exception keeps the mutations made before it, as in Python.
    - Attributes assigned outside [__init__] ([nodes], [alive_count],
      [dead_count], [index]) are optional fields: reading one that was
      never assigned raises [AttributeError].
    - Node objects are shared and mutated in place.  A reference to a node
      is its position in [self.nodes]; [NodeInstance] defines no [__eq__],
      so [node != n] compares identities, that is, positions.
    - Outbound HTTP calls, [logger.dispatch] calls, created tasks and the
      response written to the caller are recorded, in order, in a log.
    - The answers of the network are inputs: a probe outcome per node for
      a sweep, a forward outcome per node for a request. *)

From stdpp Require Import base numbers list strings.

Open Scope string_scope.
Open Scope list_scope.

(** ** Python values and exceptions *)

(** The exception classes that occur in the module or that its calls can
    raise. The [aiohttp] names are those of the [except] clause of
    [do_request]; [ClientPayloadError] and [AsyncioTimeoutError] stand for
    the failures of [session.post] that this clause does not list.
    [OutOfAliveNodes] names the module's class of that name, which derives
    from no exception class: no computation of the module ends with it
    (see [raise_object]). *)
Inductive Exn : Type :=
| ServerTimeoutError
| ServerConnectionError
| ClientConnectionError
| ClientOSError
| ClientResponseError
| ClientPayloadError
| AsyncioTimeoutError
| ContentTypeError
| OutOfAliveNodes
| AttributeError (name : string)
| TypeError
| KeyError (key : string)
| IndexError
| ValueError (msg : string)
| RecursionError.

Inductive Result (A : Type) : Type :=
| Return (a : A)
| Raise (e : Exn).

Arguments Return {A} a.
Arguments Raise {A} e.

(** A decoded JSON document, as [resp.json()] and [ujson.loads] build it.
    [JObj] lists the items of the resulting [dict]; [JNum] carries an
    integer, a number being looked at only for whether it is zero. *)
#[warnings="-register-all"]
Inductive JValue : Type :=
| JNull
| JBool (b : bool)
| JNum (z : Z)
| JStr (s : string)
| JList (items : list JValue)
| JObj (items : list (string * JValue)).

(** Python truth value testing, [bool(v)]. *)
Definition truthy (v : JValue) : bool :=
  match v with
  | JNull => false
  | JBool b => b
  | JNum z => negb (z =? 0)%Z
  | JStr s => negb (String.eqb s "")
  | JList items => match items with [] => false | _ => true end
  | JObj items => match items with [] => false | _ => true end
  end.

Fixpoint dict_get (key : string) (items : list (string * JValue)) : option JValue :=
  match items with
  | [] => None
  | (k, v) :: rest => if String.eqb k key then Some v else dict_get key rest
  end.

(** [v[key]] for a string key: only a [dict] holding the key answers. *)
Definition getitem_str (v : JValue) (key : string) : Result JValue :=
  match v with
  | JObj items =>
      match dict_get key items with
      | Some x => Return x
      | None => Raise (KeyError key)
      end
  | _ => Raise TypeError
  end.

(** ** The state-and-exception monad *)

Definition Py (S A : Type) : Type := S -> Result A * S.

Definition ret {S A} (a : A) : Py S A := fun s => (Return a, s).

Definition raise {S A} (e : Exn) : Py S A := fun s => (Raise e, s).

Definition bind {S A B} (m : Py S A) (k : A -> Py S B) : Py S B :=
  fun s =>
    match m s with
    | (Return a, s') => k a s'
    | (Raise e, s') => (Raise e, s')
    end.

(** The monad's sequencing is written with stdpp's [x ← m; k] and
    [m ;; k]. *)
#[global] Instance Py_ret {S} : MRet (Py S) := fun A => @ret S A.
#[global] Instance Py_bind {S} : MBind (Py S) := fun A B k m => @bind S A B m k.

(** [try: body except <classes>: handler], the classes given as a test. *)
Definition try_except {S A} (body : Py S A) (caught : Exn -> bool)
    (handler : Py S A) : Py S A :=
  fun s =>
    match body s with
    | (Return a, s') => (Return a, s')
    | (Raise e, s') => if caught e then handler s' else (Raise e, s')
    end.

(** A pure computation that may raise, run inside the monad. *)
Definition lift {S A} (r : Result A) : Py S A := fun s => (r, s).

Fixpoint mapM {S A B} (f : A -> Py S B) (l : list A) : Py S (list B) :=
  match l with
  | [] => ret []
  | x :: rest => y ← f x; ys ← mapM f rest; ret (y :: ys)
  end.

(** ** Effects that leave the process *)

Inductive Payload : Type :=
| SyncingQuery          (* json={'jsonrpc': '2.0', 'method': 'eth_syncing', 'params': [], 'id': 1} *)
| RawData (data : string).

Inductive Event : Type :=
| Dispatch (name : string) (args : list string)
| Post (url : string) (payload : Payload) (timeout : nat)
| CreateTask (target : nat) (data : string)
| Respond (status : Z) (headers : option JValue)
| Send (data : string).

(** What a liveness probe meets: the request fails, the body is not JSON,
    or the body decodes to a document. *)
Inductive ProbeOutcome : Type :=
| ProbeFailed (e : Exn)
| ProbeDecoded (doc : JValue).

(** What a forward meets: a response (text, status, headers as a [dict]),
    or an exception of [session.post]. *)
Inductive ForwardOutcome : Type :=
| Responded (text : string) (status : Z) (headers : JValue)
| Failed (e : Exn).

(** The result of [do_request]: the tuple [(text, status, headers_json)]
    or an instance of [ServerOffline]. *)
Inductive ForwardResult : Type :=
| Tuple3 (text : string) (status : Z) (headers_json : string)
| ServerOfflineInstance.

(** [r[0]], [r[1]], [r[2]]: a [ServerOffline] instance is an exception
    object and is not subscriptable. *)
Definition item0 (r : ForwardResult) : Result string :=
  match r with
  | Tuple3 text _ _ => Return text
  | ServerOfflineInstance => Raise TypeError
  end.

Definition item1 (r : ForwardResult) : Result Z :=
  match r with
  | Tuple3 _ status _ => Return status
  | ServerOfflineInstance => Raise TypeError
  end.

Definition item2 (r : ForwardResult) : Result string :=
  match r with
  | Tuple3 _ _ headers_json => Return headers_json
  | ServerOfflineInstance => Raise TypeError
  end.

Definition isinstance_ServerOffline (r : ForwardResult) : bool :=
  match r with
  | Tuple3 _ _ _ => false
  | ServerOfflineInstance => true
  end.

(** What the module takes from its runtime: [ujson.dumps], [ujson.loads]
    and the interpreter's bound on nested calls. *)
Class Runtime : Type := {
  dumps : JValue -> string;
  loads : string -> JValue;
  recursion_limit : nat
}.

(** ** NodeInstance *)

Record NodeInstance : Type := mkNode {
  url : string;
  status : bool
}.

(** [NodeInstance.__init__]. *)
Definition NodeInstance_init (u : string) : NodeInstance :=
  {| url := u; status := false |}.

(** A method of a node runs on the node and on the log. *)
Record NodeCtx : Type := mkNodeCtx {
  self : NodeInstance;
  nlog : list Event
}.

Definition self_url : Py NodeCtx string :=
  fun c => (Return (url (self c)), c).

Definition self_status : Py NodeCtx bool :=
  fun c => (Return (status (self c)), c).

Definition set_self_status (b : bool) : Py NodeCtx unit :=
  fun c => (Return tt, {| self := {| url := url (self c); status := b |};
                          nlog := nlog c |}).

Definition node_emit (e : Event) : Py NodeCtx unit :=
  fun c => (Return tt, {| self := self c; nlog := nlog c ++ [e] |}).

(** Modelled from the spec: [logger.dispatch], of the package's [logger]
    module. The spec has the events consumed by an external
    collaborator, fire-and-forget, with no return value expected; the
    call is recorded and returns. *)
Definition node_dispatch (name : string) (args : list string) : Py NodeCtx unit :=
  node_emit (Dispatch name args).

Definition set_online : Py NodeCtx unit :=
  s ← self_status;
  if (s : bool) then ret tt
  else
    set_self_status true ;;
    u ← self_url;
    node_dispatch "node_online" [u].

Definition set_offline : Py NodeCtx unit :=
  s ← self_status;
  if negb s then ret tt
  else
    set_self_status false ;;
    u ← self_url;
    node_dispatch "node_offline" [u].

(** [await resp.json()] of the probe. *)
Definition probe_json (p : ProbeOutcome) : Result JValue :=
  match p with
  | ProbeFailed e => Raise e
  | ProbeDecoded doc => Return doc
  end.

(** The bare [except:] of [check_alive] catches every exception. *)
Definition any_exception (e : Exn) : bool := true.

Definition check_alive (p : ProbeOutcome) : Py NodeCtx bool :=
  try_except
    (u ← self_url;
     node_emit (Post u SyncingQuery 10) ;;
     doc ← lift (probe_json p);
     res ← lift (getitem_str doc "result");
     if truthy res then
       set_offline ;; ret false
     else
       set_online ;; ret true)
    any_exception
    (set_offline ;; ret false).

(** The classes of the [except] clause of [do_request]; [ContentTypeError]
    derives from [ClientResponseError]. *)
Definition offline_class (e : Exn) : bool :=
  match e with
  | ServerTimeoutError | ServerConnectionError | ClientConnectionError
  | ClientOSError | ClientResponseError | ContentTypeError => true
  | _ => false
  end.

Definition do_request `{Runtime} (o : ForwardOutcome) (data : string)
    : Py NodeCtx ForwardResult :=
  try_except
    (u ← self_url;
     node_emit (Post u (RawData data) 3) ;;
     match o with
     | Responded text st headers => ret (Tuple3 text st (dumps headers))
     | Failed e => raise e
     end)
    offline_class
    (set_offline ;; ret ServerOfflineInstance).

(** ** NodeRouter *)

(** [urls] is assigned by [__init__]; [nodes] by [setup]; [alive_count],
    [dead_count] and [index] by [recheck]. The counters and the index
    start at 0 and are only reset, incremented or set to a count, so they
    are naturals. *)
Record NodeRouter : Type := mkRouter {
  urls : list string;
  nodes : option (list NodeInstance);
  alive_count : option nat;
  dead_count : option nat;
  index : option nat
}.

(** [NodeRouter.__init__]. *)
Definition NodeRouter_init (us : list string) : Result NodeRouter :=
  match us with
  | [] => Raise (ValueError "No nodes provided")
  | _ => Return {| urls := us; nodes := None; alive_count := None;
                   dead_count := None; index := None |}
  end.

(** The router, the log, and the tasks created and not yet run. *)
Record World : Type := mkWorld {
  router : NodeRouter;
  log : list Event;
  pending : list (nat * string)
}.

Definition getattr {A} (name : string) (field : NodeRouter -> option A)
    : Py World A :=
  fun w =>
    match field (router w) with
    | Some v => (Return v, w)
    | None => (Raise (AttributeError name), w)
    end.

Definition self_urls : Py World (list string) :=
  fun w => (Return (urls (router w)), w).
Definition self_nodes : Py World (list NodeInstance) := getattr "nodes" nodes.
Definition self_alive_count : Py World nat := getattr "alive_count" alive_count.
Definition self_index : Py World nat := getattr "index" index.

Definition update_router (f : NodeRouter -> NodeRouter) : Py World unit :=
  fun w => (Return tt, {| router := f (router w); log := log w;
                          pending := pending w |}).

Definition set_nodes (ns : list NodeInstance) : Py World unit :=
  update_router (fun r => {| urls := urls r; nodes := Some ns;
                             alive_count := alive_count r;
                             dead_count := dead_count r; index := index r |}).

Definition set_alive_count (n : nat) : Py World unit :=
  update_router (fun r => {| urls := urls r; nodes := nodes r;
                             alive_count := Some n;
                             dead_count := dead_count r; index := index r |}).

Definition set_dead_count (n : nat) : Py World unit :=
  update_router (fun r => {| urls := urls r; nodes := nodes r;
                             alive_count := alive_count r;
                             dead_count := Some n; index := index r |}).

Definition set_index (n : nat) : Py World unit :=
  update_router (fun r => {| urls := urls r; nodes := nodes r;
                             alive_count := alive_count r;
                             dead_count := dead_count r; index := Some n |}).

Definition emit (e : Event) : Py World unit :=
  fun w => (Return tt, {| router := router w; log := log w ++ [e];
                          pending := pending w |}).

(** Modelled from the spec: [logger.dispatch] again, as called by the
    router (see [node_dispatch]). *)
Definition dispatch (name : string) (args : list string) : Py World unit :=
  emit (Dispatch name args).

(** A method of the node referenced by [k], run in place: the node at
    position [k] of [self.nodes] is replaced by what the method leaves.
    References are only taken from [self.nodes], so the first two cases
    are those of a reference that does not exist. *)
Definition on_node {A} (k : nat) (m : Py NodeCtx A) : Py World A :=
  fun w =>
    match nodes (router w) with
    | None => (Raise (AttributeError "nodes"), w)
    | Some ns =>
        match ns !! k with
        | None => (Raise IndexError, w)
        | Some nd =>
            let '(res, c) := m {| self := nd; nlog := log w |} in
            (res, {| router := {| urls := urls (router w);
                                  nodes := Some (<[k := self c]> ns);
                                  alive_count := alive_count (router w);
                                  dead_count := dead_count (router w);
                                  index := index (router w) |};
                     log := nlog c;
                     pending := pending w |})
        end
    end.

(** [results.count(True)]. *)
Definition count_true (results : list bool) : nat :=
  length (List.filter (fun b => b) results).

(** The references, in list order from position [k], of the nodes that
    satisfy [keep]: a comprehension [[node for node in self.nodes if ...]]. *)
Fixpoint nodes_where (keep : nat -> NodeInstance -> bool) (k : nat)
    (ns : list NodeInstance) : list nat :=
  match ns with
  | [] => []
  | nd :: rest =>
      if keep k nd then k :: nodes_where keep (S k) rest
      else nodes_where keep (S k) rest
  end.

(** [recheck]. [asyncio.gather] runs the probes concurrently; each one
    touches its own node only, and the results come in list order
    whatever the order of the answers. The probes are run here one after
    another, in list order: the flags, the results, the counters and the
    index do not depend on that, but the order of the logged
    [node_online] and [node_offline] events does, which in the code is
    the order in which the answers arrive. *)
Definition recheck (probe : nat -> ProbeOutcome) : Py World (list nat) :=
  ns ← self_nodes;
  results ← mapM (fun k => on_node k (check_alive (probe k)))
                 (seq 0 (length ns));
  set_alive_count (count_true results) ;;
  ns1 ← self_nodes;
  ac ← self_alive_count;
  set_dead_count (length ns1 - ac) ;;
  set_index 0 ;;
  ns2 ← self_nodes;
  ret (nodes_where (fun _ nd => status nd) 0 ns2).

Definition setup (probe : nat -> ProbeOutcome) : Py World unit :=
  us ← self_urls;
  set_nodes (map NodeInstance_init us) ;;
  recheck probe ;;
  dispatch "node_router_online" [].

(** [raise obj]: Python raises the object when its class derives from
    [BaseException], and [TypeError] (exceptions must derive from
    BaseException) when it does not. *)
Definition raise_object {S A} (derives_from_BaseException : bool) (e : Exn)
    : Py S A :=
  if derives_from_BaseException then raise e else raise TypeError.

(** [class OutOfAliveNodes: pass] names no base class. *)
Definition OutOfAliveNodes_derives_from_BaseException : bool := false.

(** [get_execution_node], with [budget] nested calls left before the
    interpreter raises [RecursionError]. *)
Fixpoint get_execution_node_rec (budget : nat) : Py World nat :=
  match budget with
  | 0 => raise RecursionError
  | S budget' =>
      ac ← self_alive_count;
      if (ac =? 0)%nat then
        raise_object OutOfAliveNodes_derives_from_BaseException OutOfAliveNodes
      else
        i ← self_index;
        ns ← self_nodes;
        (if (length ns <=? i)%nat then set_index 0 else ret tt) ;;
        i ← self_index;
        ns ← self_nodes;
        match ns !! i with
        | None => raise IndexError
        | Some node =>
            if negb (status node) then
              i ← self_index;
              set_index (i + 1) ;;
              get_execution_node_rec budget'
            else ret i
        end
  end.

Definition get_execution_node `{Runtime} : Py World nat :=
  get_execution_node_rec recursion_limit.

(** ** Routing *)

(** The inbound request: [req.json['method']] and [req.body]. *)
Record Request : Type := mkRequest {
  method : string;
  body : string
}.

(** [asyncio.create_task(node.do_request(data))]: the call is scheduled,
    not run. *)
Definition create_task (k : nat) (data : string) : Py World unit :=
  fun w => (Return tt, {| router := router w;
                          log := log w ++ [CreateTask k data];
                          pending := pending w ++ [(k, data)] |}).

Fixpoint create_tasks (targets : list nat) (data : string) : Py World unit :=
  match targets with
  | [] => ret tt
  | k :: rest => create_task k data ;; create_tasks rest data
  end.

(** [await req.respond(status=..., headers=...)] and
    [await resp.send(..., end_stream=True)]. *)
Definition respond (st : Z) (headers : option JValue) : Py World unit :=
  emit (Respond st headers).

Definition send (data : string) : Py World unit := emit (Send data).

(** The test of the comprehension of [route],
    [node.status and node != n], at position [j] for the chosen [n]. *)
Definition other_alive (n : nat) (j : nat) (node : NodeInstance) : bool :=
  status node && negb (j =? n)%nat.

(** The methods of [NodeRouter] that return a node, looked up by name on
    [self]: the class defines [get_execution_node] and no other. *)
Definition getattr_selector `{Runtime} (name : string) : Py World (Py World nat) :=
  if String.eqb name "get_execution_node" then ret get_execution_node
  else raise (AttributeError name).

Definition route `{Runtime} (net : nat -> ForwardOutcome) (req : Request)
    : Py World unit :=
  if String.eqb (method req) "engine_forkchoiceUpdatedV1" then
    n ← get_execution_node;
    r ← on_node n (do_request (net n) (body req));
    ns ← self_nodes;
    create_tasks (nodes_where (other_alive n) 0 ns) (body req) ;;
    st ← lift (item1 r);
    hs ← lift (item2 r);
    respond st (Some (loads hs)) ;;
    text ← lift (item0 r);
    send text
  else
    n ← get_execution_node;
    r ← on_node n (do_request (net n) (body req));
    if isinstance_ServerOffline r then
      st ← lift (item1 r);
      hs ← lift (item2 r);
      respond st (Some (loads hs)) ;;
      send (dumps (JObj [("error", JStr "no upstream nodes")]))
    else
      st ← lift (item1 r);
      hs ← lift (item2 r);
      respond st (Some (loads hs)) ;;
      text ← lift (item0 r);
      send text.

Definition do_engine_route `{Runtime} (net : nat -> ForwardOutcome)
    (req : Request) : Py World unit :=
  if String.eqb (method req) "engine_getPayloadV1" then
    get_alive_node ← getattr_selector "get_alive_node";
    n ← (get_alive_node : Py World nat);
    r ← on_node n (do_request (net n) (body req));
    st ← lift (item1 r);
    respond st None ;;
    text ← lift (item0 r);
    send text
  else route net req.

(** ** The created tasks *)

(** A created task runs [do_request] on its node; nothing awaits it, so
    an exception it ends with goes nowhere. *)
Definition run_task `{Runtime} (net : nat -> ForwardOutcome)
    (t : nat * string) : Py World unit :=
  try_except
    (on_node t.1 (do_request (net t.1) t.2) ;; ret tt)
    any_exception
    (ret tt).

Fixpoint run_tasks `{Runtime} (net : nat -> ForwardOutcome)
    (ts : list (nat * string)) : Py World unit :=
  match ts with
  | [] => ret tt
  | t :: rest => run_task net t ;; run_tasks net rest
  end.

(** The event loop runs the tasks that were created. *)
Definition run_pending `{Runtime} (net : nat -> ForwardOutcome) : Py World unit :=
  fun w =>
    run_tasks net (pending w)
      {| router := router w; log := log w; pending := [] |}.

(** A request served to the end: the handler, then the tasks it left. *)
Definition serve `{Runtime} (net : nat -> ForwardOutcome) (req : Request)
    : Py World unit :=
  fun w =>
    match route net req w with
    | (res, w') => (res, (run_pending net w').2)
    end.

(** ** Observations *)

Definition count_alive (ns : list NodeInstance) : nat :=
  length (List.filter status ns).

(** What the caller was sent. *)
Definition is_response (e : Event) : bool :=
  match e with
  | Respond _ _ | Send _ => true
  | _ => false
  end.

Definition caller_response (l : list Event) : list Event :=
  List.filter is_response l.

(** The probes among the logged calls. *)
Definition is_probe (e : Event) : bool :=
  match e with
  | Post _ SyncingQuery _ => true
  | _ => false
  end.

(** The forwards among the logged calls. *)
Definition is_forward (e : Event) : bool :=
  match e with
  | Post _ (RawData _) _ => true
  | _ => false
  end.

(** What the spec calls a healthy probe: the call succeeded and the
    [result] of the decoded document is not truthy. *)
Definition probe_healthy (p : ProbeOutcome) : bool :=
  match p with
  | ProbeDecoded (JObj items) =>
      match dict_get "result" items with
      | Some v => negb (truthy v)
      | None => false
      end
  | _ => false
  end.

(** A router as a completed sweep and later requests leave it: every
    attribute assigned. *)
Definition ready (us : list string) (ns : list NodeInstance)
    (ac dc i : nat) : NodeRouter :=
  {| urls := us; nodes := Some ns; alive_count := Some ac;
     dead_count := Some dc; index := Some i |}.

(** What a method of a node adds to the log. *)
Definition emitted {A} (m : Py NodeCtx A) (c : NodeCtx) : list Event :=
  drop (length (nlog c)) (nlog (m c).2).

(** The same method called twice in a row. *)
Definition twice (m : Py NodeCtx unit) : Py NodeCtx unit := m ;; m.

(** The event of a change of the flag from [s] to [b], if there is one. *)
Definition transition (u : string) (s b : bool) : list Event :=
  if Bool.eqb s b then []
  else [Dispatch (if b then "node_online" else "node_offline") [u]].

(** What a sweep leaves, node by node from position [k]: the flags, the
    results of the probes, and the logged events. *)
Fixpoint sweep_nodes (probe : nat -> ProbeOutcome) (k : nat)
    (ns : list NodeInstance) : list NodeInstance :=
  match ns with
  | [] => []
  | nd :: rest =>
      mkNode (url nd) (probe_healthy (probe k)) :: sweep_nodes probe (S k) rest
  end.

Fixpoint sweep_results (probe : nat -> ProbeOutcome) (k : nat)
    (ns : list NodeInstance) : list bool :=
  match ns with
  | [] => []
  | nd :: rest => probe_healthy (probe k) :: sweep_results probe (S k) rest
  end.

Fixpoint sweep_log (probe : nat -> ProbeOutcome) (k : nat)
    (ns : list NodeInstance) : list Event :=
  match ns with
  | [] => []
  | nd :: rest =>
      (Post (url nd) SyncingQuery 10
         :: transition (url nd) (status nd) (probe_healthy (probe k)))
      ++ sweep_log probe (S k) rest
  end.

(** The router that [NodeRouter.__init__] leaves, before [setup]. *)
Definition fresh_world (us : list string) : World :=
  {| router := {| urls := us; nodes := None; alive_count := None;
                  dead_count := None; index := None |};
     log := []; pending := [] |}.

(** [get_execution_node] called [m] times in a row. *)
Fixpoint next_calls `{Runtime} (m : nat) : Py World (list nat) :=
  match m with
  | 0 => ret []
  | S m' => k ← get_execution_node; ks ← next_calls m'; ret (k :: ks)
  end.

(** The URL of the node referenced by [j]. *)
Definition url_of (ns : list NodeInstance) (j : nat) : string :=
  default "" (url <$> ns !! j).

(** The forwards among the logged events. *)
Definition forwards (l : list Event) : list Event := List.filter is_forward l.

(** A runtime and a healthy probe answer, for concrete runs. *)
Definition example_runtime : Runtime :=
  {| dumps := fun _ => "{}"; loads := fun _ => JObj [];
     recursion_limit := 1000 |}.

Definition not_syncing : JValue := JObj [("result", JBool false)].

(** The index after the test [self.index >= len(self.nodes)] of
    [get_execution_node]. *)
Definition normalized (ns : list NodeInstance) (i : nat) : nat :=
  if (length ns <=? i)%nat then 0 else i.

(** A router whose counters bound its flags, as a sweep leaves it and as
    forwards keep it: every attribute is assigned, [alive_count] is at
    least the number of alive nodes, and the counters add up to the
    number of nodes. *)
Definition consistent (w : World) : Prop :=
  exists us ns ac dc i,
    router w = ready us ns ac dc i
    /\ count_alive ns <= ac
    /\ ac + dc = length ns.

(** A computation that keeps the router consistent, however it ends. *)
Definition keeps {A} (m : Py World A) : Prop :=
  forall w res w', consistent w -> m w = (res, w') -> consistent w'.

(** The [logger.dispatch] calls among the logged events. *)
Definition is_dispatch (e : Event) : bool :=
  match e with
  | Dispatch _ _ => true
  | _ => false
  end.

(** The URLs, from position [k], whose probe is healthy. *)
Fixpoint healthy_urls (probe : nat -> ProbeOutcome) (k : nat)
    (us : list string) : list string :=
  match us with
  | [] => []
  | u :: rest =>
      if probe_healthy (probe k) then u :: healthy_urls probe (S k) rest
      else healthy_urls probe (S k) rest
  end.

(** A forward that ends in the [except] clause of [do_request]. *)
Definition fails_offline (o : ForwardOutcome) : bool :=
  match o with
  | Responded _ _ _ => false
  | Failed e => offline_class e
  end.

(** * Properties *)

(** ** Nodes *)

(** Unfolding of the monad's plumbing, for goals that run a method on an
    explicit state. *)
Ltac py_unfold :=
  unfold mbind, Py_bind, bind, mret, Py_ret, ret, raise, lift, try_except,
    self_url, self_status, set_self_status, node_dispatch, node_emit in *.

Ltac py_run := py_unfold; cbn.

Lemma set_online_run u s l :
  set_online (mkNodeCtx (mkNode u s) l)
  = (Return tt, mkNodeCtx (mkNode u true) (l ++ transition u s true)).
Proof. unfold set_online. destruct s; py_run; by rewrite ?app_nil_r. Qed.

Lemma set_offline_run u s l :
  set_offline (mkNodeCtx (mkNode u s) l)
  = (Return tt, mkNodeCtx (mkNode u false) (l ++ transition u s false)).
Proof. unfold set_offline. destruct s; py_run; by rewrite ?app_nil_r. Qed.

Lemma drop_length_app {A} (l k : list A) : drop (length l) (l ++ k) = k.
Proof. by rewrite drop_app_length. Qed.

(** The probe decides the flag and the result alike, and logs the call
    followed by the event of the change, if the flag changed. *)
Lemma check_alive_run p u s l :
  check_alive p (mkNodeCtx (mkNode u s) l)
  = (Return (probe_healthy p),
     mkNodeCtx (mkNode u (probe_healthy p))
       (l ++ Post u SyncingQuery 10 :: transition u s (probe_healthy p))).
Proof.
  unfold check_alive.
  assert (Hoff : forall l',
    (set_offline ;; ret false) (mkNodeCtx (mkNode u s) (l ++ l'))
    = (Return false,
       mkNodeCtx (mkNode u false) (l ++ l' ++ transition u s false))).
  { intros l'. py_unfold. rewrite set_offline_run. by rewrite <- app_assoc. }
  destruct p as [e | doc]; py_run.
  - apply (Hoff [_]).
  - destruct doc as [ | b | z | str | items | items ]; cbn;
      try apply (Hoff [_]).
    destruct (dict_get "result" items) as [v | ]; cbn;
      [ | apply (Hoff [_]) ].
    destruct (truthy v); cbn.
    + rewrite set_offline_run. by rewrite <- app_assoc.
    + rewrite set_online_run. by rewrite <- app_assoc.
Qed.

Lemma emitted_twice_set_offline c :
  emitted (twice set_offline) c = transition (url (self c)) (status (self c)) false.
Proof.
  destruct c as [[u s] l]. unfold emitted, twice. py_unfold.
  rewrite set_offline_run, set_offline_run. cbn [snd nlog self url status].
  rewrite <- app_assoc, drop_length_app. apply app_nil_r.
Qed.

Lemma emitted_twice_set_online c :
  emitted (twice set_online) c = transition (url (self c)) (status (self c)) true.
Proof.
  destruct c as [[u s] l]. unfold emitted, twice. py_unfold.
  rewrite set_online_run, set_online_run. cbn [snd nlog self url status].
  rewrite <- app_assoc, drop_length_app. apply app_nil_r.
Qed.

(** C8, as stated, fails: a node that is already offline (every node is,
    when constructed) emits no event at all when [set_offline] is called
    twice, not exactly one. *)
Lemma set_offline_twice_emits_nothing_when_offline :
  ~ (forall c : NodeCtx,
       emitted (twice set_online) c = [Dispatch "node_online" [url (self c)]]
       /\ emitted (twice set_offline) c = [Dispatch "node_offline" [url (self c)]]).
Proof.
  intros H.
  destruct (H (mkNodeCtx (NodeInstance_init "http://localhost:8545") []))
    as [_ Hoff].
  vm_compute in Hoff. discriminate Hoff.
Qed.

(** C8, amended: [set_online] and [set_offline] are idempotent. Two calls
    in a row leave what one call leaves; the second call changes nothing
    and emits nothing; and the two calls together emit the
    [node_online]/[node_offline] event, carrying the node's URL, once when
    the node was not yet in the target state and not at all when it was. *)
Theorem set_online_offline_idempotent (c : NodeCtx) :
  twice set_online c = set_online c
  /\ twice set_offline c = set_offline c
  /\ set_online (set_online c).2 = (Return tt, (set_online c).2)
  /\ set_offline (set_offline c).2 = (Return tt, (set_offline c).2)
  /\ status (self (set_online c).2) = true
  /\ status (self (set_offline c).2) = false
  /\ emitted (twice set_online) c
     = (if status (self c) then []
        else [Dispatch "node_online" [url (self c)]])
  /\ emitted (twice set_offline) c
     = (if status (self c) then [Dispatch "node_offline" [url (self c)]]
        else []).
Proof.
  rewrite emitted_twice_set_online, emitted_twice_set_offline.
  destruct c as [[u s] l].
  unfold twice. py_unfold.
  rewrite !set_online_run, !set_offline_run. cbn [snd self status url nlog].
  rewrite !set_online_run, !set_offline_run. cbn [transition Bool.eqb].
  rewrite !app_nil_r.
  repeat split; by destruct s.
Qed.

(** C10: whatever the probe meets, [check_alive] raises nothing: it
    returns a boolean, and the node's flag after the call is that boolean. *)
Theorem check_alive_returns_flag (p : ProbeOutcome) (c : NodeCtx) :
  exists (b : bool) (c' : NodeCtx),
    check_alive p c = (Return b, c')
    /\ status (self c') = b
    /\ url (self c') = url (self c).
Proof.
  destruct c as [[u s] l]. rewrite check_alive_run. eauto.
Qed.

(** A forward that is answered returns the tuple and leaves the node as
    it was. *)
Lemma do_request_responded `{Runtime} text st headers data u s l :
  do_request (Responded text st headers) data (mkNodeCtx (mkNode u s) l)
  = (Return (Tuple3 text st (dumps headers)),
     mkNodeCtx (mkNode u s) (l ++ [Post u (RawData data) 3])).
Proof. reflexivity. Qed.

(** A forward that fails with a class of the [except] clause marks the
    node offline and returns a [ServerOffline] instance. *)
Lemma do_request_offline `{Runtime} e data u s l :
  offline_class e = true ->
  do_request (Failed e) data (mkNodeCtx (mkNode u s) l)
  = (Return ServerOfflineInstance,
     mkNodeCtx (mkNode u false)
       (l ++ Post u (RawData data) 3 :: transition u s false)).
Proof.
  intros He. unfold do_request. py_run. rewrite He.
  rewrite set_offline_run. by rewrite <- app_assoc.
Qed.

(** Any other failure of the forward leaves [do_request] as it came. *)
Lemma do_request_raises `{Runtime} e data u s l :
  offline_class e = false ->
  do_request (Failed e) data (mkNodeCtx (mkNode u s) l)
  = (Raise e, mkNodeCtx (mkNode u s) (l ++ [Post u (RawData data) 3])).
Proof.
  intros He. unfold do_request. py_run. by rewrite He.
Qed.

(** ** The sweep *)

Lemma on_node_run {A} (m : Py NodeCtx A) k nd res nd' l' us ns ac dc i l pd :
  ns !! k = Some nd ->
  m (mkNodeCtx nd l) = (res, mkNodeCtx nd' l') ->
  on_node k m (mkWorld (mkRouter us (Some ns) ac dc i) l pd)
  = (res, mkWorld (mkRouter us (Some (<[k := nd']> ns)) ac dc i) l' pd).
Proof.
  intros Hk Hm. unfold on_node. cbn. rewrite Hk, Hm. reflexivity.
Qed.

Lemma insert_middle {A} (l1 l2 : list A) (x y : A) :
  <[length l1 := y]> (l1 ++ x :: l2) = l1 ++ y :: l2.
Proof. rewrite insert_app_r_alt by lia. by rewrite Nat.sub_diag. Qed.

Lemma mapM_sweep probe suffix : forall prefix us ac dc i l pd,
  mapM (fun k => on_node k (check_alive (probe k)))
       (seq (length prefix) (length suffix))
       (mkWorld (mkRouter us (Some (prefix ++ suffix)) ac dc i) l pd)
  = (Return (sweep_results probe (length prefix) suffix),
     mkWorld
       (mkRouter us
          (Some (prefix ++ sweep_nodes probe (length prefix) suffix)) ac dc i)
       (l ++ sweep_log probe (length prefix) suffix) pd).
Proof.
  induction suffix as [ | nd rest IH ]; intros prefix us ac dc i l pd.
  - cbn. unfold ret. by rewrite (app_nil_r l).
  - cbn [length seq mapM sweep_results sweep_nodes sweep_log].
    unfold mbind, Py_bind, bind at 1.
    destruct nd as [u s].
    erewrite on_node_run;
      [ | apply list_lookup_middle; reflexivity | apply check_alive_run ].
    rewrite insert_middle.
    specialize (IH (prefix ++ [mkNode u (probe_healthy (probe (length prefix)))])
                  us ac dc i
                  (l ++ Post u SyncingQuery 10
                     :: transition u s (probe_healthy (probe (length prefix))))
                  pd).
    rewrite length_app, Nat.add_1_r in IH. cbn [length] in IH.
    rewrite <- app_assoc in IH. cbn [app] in IH.
    unfold bind at 1. rewrite IH. py_run.
    by rewrite <- !app_assoc.
Qed.

Lemma sweep_nodes_length probe ns : forall k,
  length (sweep_nodes probe k ns) = length ns.
Proof. induction ns as [ | nd rest IH ]; intros k; cbn; [ done | by rewrite IH ]. Qed.

Lemma sweep_results_count probe ns : forall k,
  count_true (sweep_results probe k ns) = count_alive (sweep_nodes probe k ns).
Proof.
  unfold count_true, count_alive.
  induction ns as [ | nd rest IH ]; intros k; cbn; [ done | ].
  destruct (probe_healthy (probe k)); cbn; by rewrite IH.
Qed.

Lemma count_alive_le_length ns : count_alive ns <= length ns.
Proof. unfold count_alive. apply List.filter_length_le. Qed.

Lemma sweep_nodes_lookup probe ns : forall k j nd',
  sweep_nodes probe k ns !! j = Some nd' ->
  status nd' = probe_healthy (probe (k + j))
  /\ exists nd, ns !! j = Some nd /\ url nd' = url nd.
Proof.
  induction ns as [ | nd rest IH ]; intros k j nd' Hj; cbn in Hj; [ done | ].
  destruct j as [ | j ]; cbn in Hj.
  - inversion Hj; subst; cbn. rewrite Nat.add_0_r. eauto.
  - apply IH in Hj. by rewrite Nat.add_succ_r.
Qed.

Lemma nodes_where_elem keep ns : forall k j,
  j ∈ nodes_where keep k ns
  <-> k <= j /\ exists nd, ns !! (j - k) = Some nd /\ keep j nd = true.
Proof.
  induction ns as [ | nd rest IH ]; intros k j; cbn.
  - split; [ by intros ?%elem_of_nil | by intros (_ & ? & ? & _) ].
  - assert (Hrest : j ∈ nodes_where keep (S k) rest
                    <-> k < j /\ exists x, (nd :: rest) !! (j - k) = Some x
                                           /\ keep j x = true).
    { rewrite IH. split.
      - intros (Hle & x & Hx & Hkeep). split; [ lia | ].
        exists x. split; [ | done ].
        replace (j - k) with (S (j - S k)) by lia. done.
      - intros (Hlt & x & Hx & Hkeep). split; [ lia | ].
        exists x. split; [ | done ].
        replace (j - k) with (S (j - S k)) in Hx by lia. done. }
    destruct (keep k nd) eqn:Hk.
    + rewrite elem_of_cons, Hrest. split.
      * intros [-> | (Hlt & Hx)]; [ | split; [ lia | done ] ].
        split; [ lia | ]. exists nd. by rewrite Nat.sub_diag.
      * intros (Hle & Hx). destruct (decide (j = k)) as [-> | Hne]; [ by left | ].
        right. split; [ lia | done ].
    + rewrite Hrest. split.
      * intros (Hlt & Hx). split; [ lia | done ].
      * intros (Hle & x & Hx & Hkeep).
        destruct (decide (j = k)) as [-> | Hne].
        -- rewrite Nat.sub_diag in Hx. cbn in Hx. congruence.
        -- split; [ lia | eauto ].
Qed.

Lemma nodes_where_NoDup keep ns : forall k, NoDup (nodes_where keep k ns).
Proof.
  induction ns as [ | nd rest IH ]; intros k; cbn; [ constructor | ].
  destruct (keep k nd); [ | apply IH ].
  constructor; [ | apply IH ].
  rewrite nodes_where_elem. lia.
Qed.

Lemma recheck_run probe us ns ac dc i l pd :
  recheck probe (mkWorld (mkRouter us (Some ns) ac dc i) l pd)
  = (Return (nodes_where (fun _ nd => status nd) 0 (sweep_nodes probe 0 ns)),
     mkWorld
       (ready us (sweep_nodes probe 0 ns)
          (count_true (sweep_results probe 0 ns))
          (length (sweep_nodes probe 0 ns)
           - count_true (sweep_results probe 0 ns))
          0)
       (l ++ sweep_log probe 0 ns) pd).
Proof.
  unfold recheck, self_nodes, getattr. py_run.
  pose proof (mapM_sweep probe ns [] us ac dc i l pd) as Hsweep.
  cbn [length app] in Hsweep. rewrite Hsweep. reflexivity.
Qed.

(** C6: after a sweep over any node list, [alive_count + dead_count] is
    the number of nodes, each node's flag says whether its probe
    succeeded with a non-truthy [result], the index is 0, and the sweep
    returns exactly the nodes whose flag is true. *)
Theorem recheck_postcondition (probe : nat -> ProbeOutcome)
    (us : list string) (ns : list NodeInstance) (ac dc i : option nat)
    (l : list Event) (pd : list (nat * string)) :
  exists (alive : list nat) (ns' : list NodeInstance) (ac' dc' : nat)
         (l' : list Event),
    recheck probe (mkWorld (mkRouter us (Some ns) ac dc i) l pd)
    = (Return alive, mkWorld (ready us ns' ac' dc' 0) l' pd)
    /\ ac' + dc' = length ns'
    /\ length ns' = length ns
    /\ ac' = count_alive ns'
    /\ (forall k nd', ns' !! k = Some nd' ->
          status nd' = probe_healthy (probe k)
          /\ exists nd, ns !! k = Some nd /\ url nd' = url nd)
    /\ NoDup alive
    /\ (forall k, k ∈ alive <->
          exists nd', ns' !! k = Some nd' /\ status nd' = true).
Proof.
  rewrite recheck_run.
  eexists _, _, _, _, _. split; [ reflexivity | ].
  rewrite sweep_results_count.
  pose proof (count_alive_le_length (sweep_nodes probe 0 ns)) as Hle.
  repeat split.
  - lia.
  - apply sweep_nodes_length.
  - by apply sweep_nodes_lookup in H as [? _].
  - by apply sweep_nodes_lookup in H as [_ ?].
  - apply nodes_where_NoDup.
  - rewrite nodes_where_elem. intros (_ & nd' & Hnd' & Hs).
    rewrite Nat.sub_0_r in Hnd'. eauto.
  - rewrite nodes_where_elem. intros (nd' & Hnd' & Hs).
    split; [ lia | ]. rewrite Nat.sub_0_r. eauto.
Qed.

(** ** Setup *)

Lemma sweep_log_probes probe ns : forall k,
  List.filter is_probe (sweep_log probe k ns)
  = map (fun nd => Post (url nd) SyncingQuery 10) ns.
Proof.
  induction ns as [ | nd rest IH ]; intros k; cbn; [ done | ].
  f_equal. rewrite List.filter_app, IH.
  unfold transition.
  by destruct (Bool.eqb _ _), (probe_healthy (probe k)).
Qed.

Lemma sweep_log_no_announcement probe ns : forall k,
  Dispatch "node_router_online" [] ∉ sweep_log probe k ns.
Proof.
  induction ns as [ | nd rest IH ]; intros k; cbn.
  - apply not_elem_of_nil.
  - rewrite elem_of_cons, elem_of_app. intros [Heq | [Hin | Hin]].
    + discriminate Heq.
    + unfold transition in Hin.
      destruct (Bool.eqb _ _), (probe_healthy (probe k));
        (apply elem_of_nil in Hin || apply list_elem_of_singleton in Hin);
        done.
    + by apply IH in Hin.
Qed.

Lemma setup_run probe us :
  let ns := sweep_nodes probe 0 (map NodeInstance_init us) in
  setup probe (fresh_world us)
  = (Return tt,
     mkWorld
       (ready us ns (count_alive ns) (length ns - count_alive ns) 0)
       (sweep_log probe 0 (map NodeInstance_init us)
          ++ [Dispatch "node_router_online" []])
       []).
Proof.
  cbn zeta. unfold setup, fresh_world, self_urls, set_nodes, update_router.
  py_run. rewrite recheck_run. cbn. by rewrite sweep_results_count.
Qed.

(** Before the first sweep has assigned the counters, a selection
    returns no node, whatever [self.nodes] holds. *)
Lemma no_selection_without_counters `{Runtime} us ns i l pd dc k w' :
  get_execution_node (mkWorld (mkRouter us ns None dc i) l pd) <> (Return k, w').
Proof.
  unfold get_execution_node. by destruct recursion_limit.
Qed.

(** C7: [setup] runs one full sweep, one probe per node, and dispatches
    [node_router_online] after it, as the last event; when it does, every
    node's flag and the counters come from that sweep. Before the sweep
    has completed, on the router that [__init__] leaves and on the router
    whose [nodes] alone are assigned, a selection returns no node. *)
Theorem setup_sweeps_before_announcing `{Runtime} (probe : nat -> ProbeOutcome)
    (us : list string) :
  exists (sweep_events : list Event) (ns : list NodeInstance) (ac dc : nat),
    setup probe (fresh_world us)
    = (Return tt,
       mkWorld (ready us ns ac dc 0)
         (sweep_events ++ [Dispatch "node_router_online" []]) [])
    /\ (Dispatch "node_router_online" [] ∉ sweep_events)
    /\ List.filter is_probe sweep_events
       = map (fun u => Post u SyncingQuery 10) us
    /\ map url ns = us
    /\ (forall k nd, ns !! k = Some nd -> status nd = probe_healthy (probe k))
    /\ ac = count_alive ns
    /\ ac + dc = length ns
    /\ (forall k w', get_execution_node (fresh_world us) <> (Return k, w'))
    /\ (forall k w',
          get_execution_node (set_nodes (map NodeInstance_init us) (fresh_world us)).2
          <> (Return k, w')).
Proof.
  eexists _, _, _, _. split; [ apply setup_run | ].
  split; [ apply sweep_log_no_announcement | ].
  split; [ rewrite sweep_log_probes, map_map; by apply map_ext | ].
  split.
  { generalize 0 at 1. induction us as [ | u rest IH ]; intros k; cbn;
      [ done | by rewrite IH ]. }
  split; [ intros k nd Hk; by apply sweep_nodes_lookup in Hk as [? _] | ].
  split; [ done | ].
  split.
  { pose proof (count_alive_le_length
                  (sweep_nodes probe 0 (map NodeInstance_init us))). lia. }
  split; intros k w'; apply no_selection_without_counters.
Qed.

(** ** Failed forwards leave the counters alone *)

Lemma count_alive_insert_offline ns : forall k nd,
  ns !! k = Some nd ->
  count_alive (<[k := mkNode (url nd) false]> ns) + (if status nd then 1 else 0)
  = count_alive ns.
Proof.
  unfold count_alive.
  induction ns as [ | x rest IH ]; intros k nd Hk; [ done | ].
  destruct k as [ | k ]; simpl in Hk |- *.
  - inversion Hk; subst. destruct (status nd); simpl; lia.
  - specialize (IH k nd Hk). destruct (status x); simpl; lia.
Qed.

(** C9: a forward that fails with a connectivity-class error changes the
    flag of the node it was sent to and nothing else: the other nodes,
    [alive_count], [dead_count] and [index] stay as they were. So when the
    node was alive and the counter agreed with the flags, it no longer
    does, until a sweep recomputes it. *)
Theorem failed_forward_frame `{Runtime} (us : list string)
    (ns : list NodeInstance) (ac dc i : nat) (l : list Event)
    (pd : list (nat * string)) (k : nat) (nd : NodeInstance) (e : Exn)
    (data : string) :
  ns !! k = Some nd ->
  offline_class e = true ->
  exists (ns' : list NodeInstance) (l' : list Event),
    on_node k (do_request (Failed e) data) (mkWorld (ready us ns ac dc i) l pd)
    = (Return ServerOfflineInstance, mkWorld (ready us ns' ac dc i) l' pd)
    /\ ns' !! k = Some (mkNode (url nd) false)
    /\ (forall j, j <> k -> ns' !! j = ns !! j)
    /\ length ns' = length ns
    /\ (status nd = true -> count_alive ns = ac -> count_alive ns' <> ac)
    /\ (forall probe, exists alive ns'' l'',
          recheck probe (mkWorld (ready us ns' ac dc i) l' pd)
          = (Return alive,
             mkWorld (ready us ns'' (count_alive ns'')
                        (length ns'' - count_alive ns'') 0) l'' pd)).
Proof.
  intros Hk He. destruct nd as [u s].
  eexists (<[k := mkNode u false]> ns), _. split.
  { unfold ready. eapply on_node_run; [ exact Hk | ].
    by apply do_request_offline. }
  split; [ apply list_lookup_insert_eq; by eapply lookup_lt_Some | ].
  split; [ intros j Hj; by apply list_lookup_insert_ne | ].
  split; [ apply length_insert | ].
  split.
  - cbn. intros -> <-.
    pose proof (count_alive_insert_offline ns k (mkNode u true) Hk) as Hc.
    cbn in Hc. lia.
  - intros probe. eexists _, _, _. unfold ready at 1.
    rewrite recheck_run. by rewrite sweep_results_count.
Qed.

(** ** Selection *)

(** With a counter of zero the guard is taken; its [raise] is given an
    object that is no exception, and ends with [TypeError]. *)
Lemma select_none_alive us ns dc i l pd budget :
  get_execution_node_rec (S budget) (mkWorld (ready us ns 0 dc i) l pd)
  = (Raise TypeError, mkWorld (ready us ns 0 dc i) l pd).
Proof. reflexivity. Qed.

(** The selection on a router whose counter is not zero: only the index
    moves. *)
Section Selection.

Context (us : list string) (ns : list NodeInstance) (ac dc : nat)
        (l : list Event) (pd : list (nat * string)).
Hypothesis counter_nonzero : ac <> 0.

(** The router with its index at [i]. *)
Let at_index (i : nat) : World := mkWorld (ready us ns ac dc i) l pd.

Local Ltac select_step :=
  unfold at_index; cbn [get_execution_node_rec];
  unfold ready, self_alive_count, self_index, self_nodes, getattr,
    set_index, update_router; py_run;
  rewrite (proj2 (Nat.eqb_neq ac 0) counter_nonzero); cbn.

Lemma select_wrap i budget :
  length ns <= i ->
  get_execution_node_rec (S budget) (at_index i)
  = get_execution_node_rec (S budget) (at_index 0).
Proof.
  intros Hi. select_step.
  apply Nat.leb_le in Hi. rewrite Hi. cbn.
  by destruct (length ns <=? 0)%nat.
Qed.

Lemma select_alive i budget nd :
  ns !! i = Some nd -> status nd = true ->
  get_execution_node_rec (S budget) (at_index i) = (Return i, at_index i).
Proof.
  intros Hi Hs. select_step.
  apply lookup_lt_Some in Hi as Hlt.
  apply Nat.leb_gt in Hlt. rewrite Hlt. cbn.
  by rewrite Hi, Hs.
Qed.

Lemma select_dead i budget nd :
  ns !! i = Some nd -> status nd = false ->
  get_execution_node_rec (S budget) (at_index i)
  = get_execution_node_rec budget (at_index (i + 1)).
Proof.
  intros Hi Hs. select_step.
  apply lookup_lt_Some in Hi as Hlt.
  apply Nat.leb_gt in Hlt. rewrite Hlt. cbn.
  by rewrite Hi, Hs.
Qed.

(** From [i], past [d] dead nodes, to an alive one: [d] nested calls. *)
Lemma scan_forward : forall d i budget nd,
  (forall j x, i <= j < i + d -> ns !! j = Some x -> status x = false) ->
  ns !! (i + d) = Some nd -> status nd = true ->
  d < budget ->
  get_execution_node_rec budget (at_index i)
  = (Return (i + d), at_index (i + d)).
Proof.
  induction d as [ | d IH ]; intros i budget nd Hdead Hnd Hs Hb;
    (destruct budget as [ | budget ]; [ lia | ]).
  - rewrite Nat.add_0_r in *. by eapply select_alive.
  - destruct (lookup_lt_is_Some_2 ns i) as [x Hx].
    { apply lookup_lt_Some in Hnd. lia. }
    erewrite select_dead; [ | exact Hx | apply (Hdead i x); [ lia | done ] ].
    replace (i + S d) with ((i + 1) + d) in * by lia.
    eapply IH; [ | done | done | lia ].
    intros j y Hj. apply Hdead. lia.
Qed.

(** From [i], past the dead nodes to the end of the list, then from
    position 0 to the first alive node [p]. *)
Lemma scan_around p ndp : forall m i budget,
  i + m = length ns ->
  (forall j x, i <= j -> ns !! j = Some x -> status x = false) ->
  (forall j x, j < p -> ns !! j = Some x -> status x = false) ->
  ns !! p = Some ndp -> status ndp = true ->
  m + p < budget ->
  get_execution_node_rec budget (at_index i) = (Return p, at_index p).
Proof.
  induction m as [ | m IH ]; intros i budget Hlen Hend Hfirst Hp Hs Hb;
    (destruct budget as [ | budget ]; [ lia | ]).
  - rewrite select_wrap by lia.
    apply (scan_forward p 0 (S budget) ndp); [ | done | done | lia ].
    intros j x Hj. apply Hfirst. lia.
  - destruct (lookup_lt_is_Some_2 ns i) as [x Hx]; [ lia | ].
    erewrite select_dead; [ | exact Hx | by apply (Hend i x) ].
    apply IH; [ lia | | done | done | done | lia ].
    intros j y Hj. apply Hend. lia.
Qed.

(** With an alive node in the list and a recursion budget of the length
    of the list, a selection returns an alive node and leaves the index
    on it. *)
Lemma selection_returns_alive i budget :
  (exists k nd, ns !! k = Some nd /\ status nd = true) ->
  length ns <= budget ->
  exists k nd,
    get_execution_node_rec budget (at_index i) = (Return k, at_index k)
    /\ ns !! k = Some nd /\ status nd = true.
Proof.
  intros (k0 & nd0 & Hk0 & Hs0) Hb.
  pose (P := fun nd : NodeInstance => status nd = true).
  destruct (list_find P ns) as [[p ndp] | ] eqn:Hfind; cycle 1.
  { apply list_find_None in Hfind.
    rewrite Forall_lookup in Hfind. by destruct (Hfind k0 nd0 Hk0). }
  apply list_find_Some in Hfind as (Hp & Hps & Hfirst).
  assert (Hfirst' : forall j x, j < p -> ns !! j = Some x -> status x = false).
  { intros j x Hj Hx. apply not_true_is_false. by eapply Hfirst. }
  apply lookup_lt_Some in Hp as Hplt.
  destruct (decide (length ns <= i)) as [Hge | Hlt].
  { destruct budget as [ | budget ]; [ lia | ].
    rewrite select_wrap by done.
    exists p, ndp. split; [ | done ].
    apply (scan_forward p 0 (S budget) ndp); [ | done | done | lia ].
    intros j x Hj. apply Hfirst'. lia. }
  destruct (list_find P (drop i ns)) as [[d nd] | ] eqn:Hfrom.
  - apply list_find_Some in Hfrom as (Hd & Hds & Hbefore).
    rewrite lookup_drop in Hd.
    exists (i + d), nd. split; [ | done ].
    apply lookup_lt_Some in Hd as Hdlt.
    apply scan_forward with (nd := nd); try done; [ | lia ].
    intros j x Hj Hx. apply not_true_is_false.
    apply (Hbefore (j - i) x); [ | lia ].
    rewrite lookup_drop. by replace (i + (j - i)) with j by lia.
  - apply list_find_None in Hfrom. rewrite Forall_lookup in Hfrom.
    assert (Hend : forall j x, i <= j -> ns !! j = Some x -> status x = false).
    { intros j x Hj Hx. apply not_true_is_false.
      apply (Hfrom (j - i) x).
      rewrite lookup_drop. by replace (i + (j - i)) with j by lia. }
    assert (p < i).
    { destruct (decide (p < i)); [ done | ].
      assert (status ndp = false) by (apply (Hend p ndp); [ lia | done ]).
      unfold P in Hps. congruence. }
    exists p, ndp. split; [ | done ].
    apply scan_around with (ndp := ndp) (m := length ns - i); try done; lia.
Qed.

(** With no alive node, every nested call finds a dead node and calls
    again: the selection ends when the interpreter's recursion budget
    does, with [RecursionError], whatever the budget. *)
Lemma selection_exhausts_budget :
  ns <> [] ->
  (forall j x, ns !! j = Some x -> status x = false) ->
  forall budget i, exists i',
    get_execution_node_rec budget (at_index i)
    = (Raise RecursionError, at_index i').
Proof.
  intros Hne Hdead.
  induction budget as [ | budget IH ]; intros i; [ by exists i | ].
  destruct (decide (length ns <= i)) as [Hge | Hlt].
  - rewrite select_wrap by done.
    destruct (lookup_lt_is_Some_2 ns 0) as [x Hx].
    { destruct ns; [ done | cbn; lia ]. }
    erewrite select_dead; [ apply IH | exact Hx | by apply (Hdead 0) ].
  - destruct (lookup_lt_is_Some_2 ns i) as [x Hx]; [ lia | ].
    erewrite select_dead; [ apply IH | exact Hx | by apply (Hdead i) ].
Qed.

End Selection.

(** C3: the claim does not hold of [get_execution_node], which tests the
    counter of the last sweep and not the flags. One node, found healthy
    by the sweep of [setup]; a request forwarded to it times out, which
    marks it offline. Every node is now unhealthy, and the next selection
    does not fail with [OutOfAliveNodes]: it calls itself until the
    recursion budget is spent and ends with [RecursionError], whatever
    the budget. *)
Theorem total_outage_after_failed_forward_recurses
    (dumps_fn : JValue -> string) (loads_fn : string -> JValue) (limit : nat) :
  let RT := {| dumps := dumps_fn; loads := loads_fn;
               recursion_limit := S limit |} in
  let healthy := fun _ : nat => ProbeDecoded not_syncing in
  let timeout := fun _ : nat => Failed ServerTimeoutError in
  let req := {| method := "eth_blockNumber"; body := "{}" |} in
  let w1 := (setup healthy (fresh_world ["http://a"])).2 in
  let w2 := (route timeout req w1).2 in
  router w1 = ready ["http://a"] [mkNode "http://a" true] 1 0 0
  /\ router w2 = ready ["http://a"] [mkNode "http://a" false] 1 0 0
  /\ (exists w3, get_execution_node w2 = (Raise RecursionError, w3))
  /\ forall budget, exists w3,
       get_execution_node_rec budget w2 = (Raise RecursionError, w3)
       /\ get_execution_node_rec budget w2 <> (Raise OutOfAliveNodes, w3).
Proof.
  cbn zeta. split; [ reflexivity | ]. split; [ reflexivity | ].
  assert (Hdead : forall j x,
            [mkNode "http://a" false] !! j = Some x -> status x = false).
  { intros [ | [ | j ] ] x Hx; simpl in Hx; [ | done | done ].
    by inversion Hx. }
  match goal with
  | |- (exists w3, get_execution_node ?w = _) /\ _ =>
      set (lg := log w);
      change w with (mkWorld (ready ["http://a"] [mkNode "http://a" false]
                                1 0 0) lg [])
  end.
  pose proof (selection_exhausts_budget ["http://a"]
                [mkNode "http://a" false] 1 0 lg []
                ltac:(done) ltac:(done) Hdead) as Hrec.
  split.
  - destruct (Hrec (S limit) 0) as [i' Hrun]. eexists. exact Hrun.
  - intros budget. destruct (Hrec budget 0) as [i' Hrun].
    rewrite Hrun. eexists. split; [ reflexivity | discriminate ].
Qed.

(** X9: what the guard does give. After a sweep in which no probe was
    healthy the counter is zero, and the selection stops at the guard at
    once, leaving the router as the sweep left it and returning no node.
    What it ends with is [TypeError], not [OutOfAliveNodes]: the class
    [OutOfAliveNodes] derives from no exception class, so its instance
    cannot be raised. *)
Lemma selection_fails_after_dead_sweep `{Runtime} probe us ns ac dc i l pd :
  (forall k, probe_healthy (probe k) = false) ->
  1 <= recursion_limit ->
  let w := (recheck probe (mkWorld (mkRouter us (Some ns) ac dc i) l pd)).2 in
  alive_count (router w) = Some 0
  /\ get_execution_node w = (Raise TypeError, w)
  /\ get_execution_node w <> (Raise OutOfAliveNodes, w).
Proof.
  intros Hdead Hlim. rewrite recheck_run. cbn [snd].
  assert (Hzero : forall k, count_true (sweep_results probe k ns) = 0).
  { unfold count_true. induction ns as [ | x rest IH ]; intros k; cbn;
      [ done | by rewrite Hdead, IH ]. }
  rewrite Hzero. unfold get_execution_node.
  destruct recursion_limit as [ | budget ]; [ lia | ].
  rewrite select_none_alive. done.
Qed.

(** A forward, whatever it meets, makes no node alive: the counter of the
    last sweep stays an upper bound of the number of alive nodes. *)
Lemma forward_keeps_counter_bound `{Runtime} o data k us ns ac dc i l pd :
  count_alive ns <= ac ->
  exists res ns' l',
    on_node k (do_request o data) (mkWorld (ready us ns ac dc i) l pd)
    = (res, mkWorld (ready us ns' ac dc i) l' pd)
    /\ count_alive ns' <= ac.
Proof.
  intros Hbound. destruct (ns !! k) as [[u s] | ] eqn:Hk.
  - destruct o as [ text st headers | e ];
      [ | destruct (offline_class e) eqn:He ].
    + eexists _, _, _. unfold ready at 1. split;
        [ eapply on_node_run; [ exact Hk | apply do_request_responded ] | ].
      by rewrite list_insert_id.
    + eexists _, _, _. unfold ready at 1. split;
        [ eapply on_node_run; [ exact Hk | by apply do_request_offline ] | ].
      pose proof (count_alive_insert_offline ns k (mkNode u s) Hk) as Hc.
      cbn [url] in Hc. lia.
    + eexists _, _, _. unfold ready at 1. split;
        [ eapply on_node_run; [ exact Hk | by apply do_request_raises ] | ].
      by rewrite list_insert_id.
  - exists (Raise IndexError), ns, l. split; [ | done ].
    unfold on_node. cbn. by rewrite Hk.
Qed.

(** ** Stickiness *)

Lemma next_calls_stay `{Runtime} us ns ac dc i l pd nd m :
  ac <> 0 -> 1 <= recursion_limit ->
  ns !! i = Some nd -> status nd = true ->
  next_calls m (mkWorld (ready us ns ac dc i) l pd)
  = (Return (replicate m i), mkWorld (ready us ns ac dc i) l pd).
Proof.
  intros Hac Hlim Hi Hs. induction m as [ | m IH ]; [ done | ].
  cbn [next_calls replicate]. unfold mbind, Py_bind, bind at 1.
  unfold get_execution_node.
  destruct recursion_limit as [ | budget ]; [ lia | ].
  erewrite select_alive by done.
  unfold bind. rewrite IH. reflexivity.
Qed.

(** C5: with nodes [A, B], both alive, and the index at 0, any number of
    selections return [A] and leave the index at 0. Once [A]'s flag is
    false, whether a failed forward or a sweep made it so, the selections
    return [B], and keep returning it, the index staying on [B]. *)
Theorem selection_is_sticky `{Runtime} (a b : string) (us : list string)
    (ac dc : nat) (l : list Event) (pd : list (nat * string)) (m : nat) :
  ac <> 0 ->
  2 <= recursion_limit ->
  let A := mkNode a true in
  let B := mkNode b true in
  let A_down := mkNode a false in
  next_calls m (mkWorld (ready us [A; B] ac dc 0) l pd)
  = (Return (replicate m 0), mkWorld (ready us [A; B] ac dc 0) l pd)
  /\ [A; B] !! 0 = Some A
  /\ on_node 0 set_offline (mkWorld (ready us [A; B] ac dc 0) l pd)
     = (Return tt,
        mkWorld (ready us [A_down; B] ac dc 0)
          (l ++ [Dispatch "node_offline" [a]]) pd)
  /\ (forall ac' dc' l' pd', ac' <> 0 ->
        next_calls (S m) (mkWorld (ready us [A_down; B] ac' dc' 0) l' pd')
        = (Return (replicate (S m) 1),
           mkWorld (ready us [A_down; B] ac' dc' 1) l' pd'))
  /\ [A_down; B] !! 1 = Some B.
Proof.
  intros Hac Hlim A B A_down.
  split; [ apply next_calls_stay with (nd := A); (done || lia) | ].
  split; [ done | ].
  split; [ done | ].
  split; [ | done ].
  intros ac' dc' l' pd' Hac'.
  cbn [next_calls replicate]. unfold mbind, Py_bind, bind at 1.
  unfold get_execution_node.
  destruct recursion_limit as [ | [ | budget ] ] eqn:Hlimit; [ lia | lia | ].
  erewrite select_dead; [ | done | reflexivity | reflexivity ].
  change (0 + 1) with 1.
  erewrite select_alive; [ | done | reflexivity | reflexivity ].
  pose proof (next_calls_stay us [A_down; B] ac' dc' 1 l' pd' B m) as Hstay.
  unfold bind. rewrite Hstay; [ done | done | lia | done | done ].
Qed.

(** ** Routing *)

(** C2: the claim does not hold of [do_engine_route]. For
    [engine_getPayloadV1] it calls [self.get_alive_node], which
    [NodeRouter] does not define: the handler raises [AttributeError]
    before any node is selected, nothing is forwarded and nothing is sent
    to the caller. *)
Theorem get_payload_raises_attribute_error `{Runtime}
    (net : nat -> ForwardOutcome) (req : Request) (w : World) :
  method req = "engine_getPayloadV1" ->
  do_engine_route net req w = (Raise (AttributeError "get_alive_node"), w).
Proof.
  intros Hm. unfold do_engine_route. rewrite Hm. reflexivity.
Qed.

Lemma get_payload_raises_attribute_error_witness :
  let RT := example_runtime in
  let w := mkWorld (ready ["http://a"] [mkNode "http://a" true] 1 0 0) [] [] in
  let req := {| method := "engine_getPayloadV1"; body := "{}" |} in
  do_engine_route (fun _ => Responded "{}" 200 (JObj [])) req w
  = (Raise (AttributeError "get_alive_node"), w).
Proof.
  cbn zeta. apply get_payload_raises_attribute_error. reflexivity.
Defined.

Lemma caller_response_app l1 l2 :
  caller_response (l1 ++ l2) = caller_response l1 ++ caller_response l2.
Proof. apply List.filter_app. Qed.

Lemma caller_response_transition u s b : caller_response (transition u s b) = [].
Proof. unfold transition. by destruct (Bool.eqb s b). Qed.

Lemma forwards_app l1 l2 : forwards (l1 ++ l2) = forwards l1 ++ forwards l2.
Proof. apply List.filter_app. Qed.

Lemma forwards_transition u s b : forwards (transition u s b) = [].
Proof. unfold transition. by destruct (Bool.eqb s b). Qed.

Lemma caller_response_tasks ts data :
  caller_response (map (fun j => CreateTask j data) ts) = [].
Proof. by induction ts. Qed.

Lemma forwards_tasks ts data :
  forwards (map (fun j => CreateTask j data) ts) = [].
Proof. by induction ts. Qed.

(** Rewriting of what is observed of a log that is given piece by piece. *)
Create Rewrite HintDb log_obs.
#[local] Hint Rewrite caller_response_app caller_response_transition
  caller_response_tasks forwards_app forwards_transition forwards_tasks
  : log_obs.

(** C1: the claim does not hold of [route]. When the forward fails with a
    connectivity-class error, [do_request] returns a [ServerOffline]
    instance, and the branch that is to send the [no upstream nodes] body
    first reads [r[1]] of that instance, which is not subscriptable: the
    handler raises [TypeError] and the caller is sent nothing. *)
Theorem offline_fallback_raises_type_error `{Runtime}
    (net : nat -> ForwardOutcome) (req : Request) (us : list string)
    (ns : list NodeInstance) (ac dc i : nat) (l : list Event)
    (pd : list (nat * string)) :
  method req <> "engine_forkchoiceUpdatedV1" ->
  method req <> "engine_getPayloadV1" ->
  ac <> 0 ->
  (exists k nd, ns !! k = Some nd /\ status nd = true) ->
  length ns <= recursion_limit ->
  exists k nd,
    get_execution_node (mkWorld (ready us ns ac dc i) l pd)
    = (Return k, mkWorld (ready us ns ac dc k) l pd)
    /\ ns !! k = Some nd /\ status nd = true
    /\ forall e, net k = Failed e -> offline_class e = true ->
         exists w',
           route net req (mkWorld (ready us ns ac dc i) l pd)
           = (Raise TypeError, w')
           /\ do_engine_route net req (mkWorld (ready us ns ac dc i) l pd)
              = (Raise TypeError, w')
           /\ log w' = l ++ [Post (url nd) (RawData (body req)) 3;
                             Dispatch "node_offline" [url nd]]
           /\ caller_response (log w') = caller_response l.
Proof.
  intros Hfc Hgp Hac Halive Hlim.
  destruct (selection_returns_alive us ns ac dc l pd Hac i recursion_limit
              Halive Hlim) as (k & nd & Hsel & Hk & Hs).
  exists k, nd. split; [ exact Hsel | ]. split; [ done | ]. split; [ done | ].
  intros e Hnet He.
  apply String.eqb_neq in Hfc, Hgp.
  unfold do_engine_route. rewrite Hgp.
  unfold route. rewrite Hfc.
  unfold mbind, Py_bind, bind. unfold get_execution_node in Hsel |- *.
  rewrite Hsel, Hnet.
  destruct nd as [u s]. cbn in Hs. subst s.
  unfold ready.
  erewrite on_node_run; [ | exact Hk | by apply do_request_offline ].
  cbn. eexists. split; [ reflexivity | ]. split; [ reflexivity | ].
  split; [ reflexivity | ].
  cbn [log]. by rewrite caller_response_app, app_nil_r.
Qed.

Lemma offline_fallback_raises_type_error_witness :
  let RT := example_runtime in
  let req := {| method := "eth_blockNumber"; body := "{}" |} in
  exists k nd,
    get_execution_node
      (mkWorld (ready ["http://a"] [mkNode "http://a" true] 1 0 0) [] [])
    = (Return k,
       mkWorld (ready ["http://a"] [mkNode "http://a" true] 1 0 k) [] [])
    /\ [mkNode "http://a" true] !! k = Some nd /\ status nd = true
    /\ forall e, Failed ServerTimeoutError = Failed e -> offline_class e = true ->
         exists w',
           route (fun _ => Failed ServerTimeoutError) req
             (mkWorld (ready ["http://a"] [mkNode "http://a" true] 1 0 0) [] [])
           = (Raise TypeError, w')
           /\ do_engine_route (fun _ => Failed ServerTimeoutError) req
                (mkWorld (ready ["http://a"] [mkNode "http://a" true] 1 0 0) [] [])
              = (Raise TypeError, w')
           /\ log w' = [] ++ [Post (url nd) (RawData (body req)) 3;
                              Dispatch "node_offline" [url nd]]
           /\ caller_response (log w') = caller_response [].
Proof.
  cbn zeta.
  apply (offline_fallback_raises_type_error
           (fun _ => Failed ServerTimeoutError)
           {| method := "eth_blockNumber"; body := "{}" |}
           ["http://a"] [mkNode "http://a" true] 1 0 0 [] []).
  - discriminate.
  - discriminate.
  - lia.
  - exists 0, (mkNode "http://a" true). split; reflexivity.
  - simpl. lia.
Defined.

Lemma create_tasks_run ts data : forall r l pd,
  create_tasks ts data (mkWorld r l pd)
  = (Return tt,
     mkWorld r (l ++ map (fun j => CreateTask j data) ts)
       (pd ++ map (fun j => (j, data)) ts)).
Proof.
  induction ts as [ | j rest IH ]; intros r l pd.
  - cbn. unfold ret. by rewrite !app_nil_r.
  - cbn [create_tasks map]. unfold mbind, Py_bind, bind, create_task.
    cbn [router log pending]. rewrite IH. by rewrite <- !app_assoc.
Qed.

Lemma other_alive_after k ns : forall o,
  k < o -> length (nodes_where (other_alive k) o ns) = count_alive ns.
Proof.
  unfold count_alive, other_alive.
  induction ns as [ | x rest IH ]; intros o Ho; [ done | ]. cbn.
  assert ((o =? k)%nat = false) as -> by (apply Nat.eqb_neq; lia).
  rewrite andb_true_r.
  destruct (status x); cbn; rewrite IH by lia; done.
Qed.

Lemma other_alive_count k ns : forall o nd,
  o <= k -> ns !! (k - o) = Some nd -> status nd = true ->
  S (length (nodes_where (other_alive k) o ns)) = count_alive ns.
Proof.
  induction ns as [ | x rest IH ]; intros o nd Ho Hk Hs; [ done | ].
  destruct (decide (o = k)) as [-> | Hne].
  - rewrite Nat.sub_diag in Hk. cbn in Hk. inversion Hk; subst x.
    cbn. unfold other_alive at 1. rewrite Nat.eqb_refl, andb_false_r.
    rewrite other_alive_after by lia.
    unfold count_alive. cbn. by rewrite Hs.
  - replace (k - o) with (S (k - S o)) in Hk by lia. cbn in Hk.
    specialize (IH (S o) nd ltac:(lia) Hk Hs).
    cbn. unfold other_alive at 1.
    assert ((o =? k)%nat = false) as -> by (apply Nat.eqb_neq; lia).
    rewrite andb_true_r. unfold count_alive in *. cbn.
    destruct (status x); cbn; lia.
Qed.

(** The created tasks add nothing to what the caller is sent. *)
Lemma do_request_keeps_response `{Runtime} o data c :
  caller_response (nlog (do_request o data c).2) = caller_response (nlog c).
Proof.
  destruct c as [[u s] l]. destruct o as [ text st headers | e ].
  - rewrite do_request_responded. cbn [snd nlog].
    autorewrite with log_obs. apply app_nil_r.
  - destruct (offline_class e) eqn:He.
    + rewrite do_request_offline by done. cbn [snd nlog].
      change (Post u (RawData data) 3 :: transition u s false)
        with ([Post u (RawData data) 3] ++ transition u s false).
      autorewrite with log_obs. apply app_nil_r.
    + rewrite do_request_raises by done. cbn [snd nlog].
      autorewrite with log_obs. apply app_nil_r.
Qed.

Lemma run_task_keeps_response `{Runtime} net t w :
  caller_response (log (run_task net t w).2) = caller_response (log w).
Proof.
  unfold run_task, try_except, on_node, mbind, Py_bind, bind, ret.
  destruct (nodes (router w)) as [ ns | ]; [ | done ].
  destruct (ns !! t.1) as [ nd | ]; [ | done ].
  pose proof (do_request_keeps_response (net t.1) t.2
                {| self := nd; nlog := log w |}) as Hkeep.
  destruct (do_request (net t.1) t.2 {| self := nd; nlog := log w |})
    as [[res | e] c]; exact Hkeep.
Qed.

Lemma run_tasks_keeps_response `{Runtime} net ts : forall w,
  caller_response (log (run_tasks net ts w).2) = caller_response (log w).
Proof.
  induction ts as [ | t rest IH ]; intros w; [ done | ].
  cbn [run_tasks]. unfold mbind, Py_bind, bind.
  pose proof (run_task_keeps_response net t w) as Ht.
  destruct (run_task net t w) as [[[] | e] w']; cbn [snd] in Ht |- *.
  - by rewrite IH.
  - done.
Qed.

Lemma serve_keeps_response `{Runtime} net req w :
  caller_response (log (serve net req w).2)
  = caller_response (log (route net req w).2).
Proof.
  unfold serve. destruct (route net req w) as [res w']. cbn [snd].
  unfold run_pending. by rewrite run_tasks_keeps_response.
Qed.

Lemma url_of_ext (ns ns' : list NodeInstance) (j : nat) :
  url <$> ns' = url <$> ns -> url_of ns' j = url_of ns j.
Proof.
  intros Heq. unfold url_of. by rewrite <- !list_lookup_fmap, Heq.
Qed.

Lemma urls_insert_same (ns : list NodeInstance) (k : nat) x x' :
  ns !! k = Some x -> url x' = url x ->
  url <$> <[k := x']> ns = url <$> ns.
Proof.
  intros Hk Hu. rewrite list_fmap_insert. apply list_insert_id.
  by rewrite list_lookup_fmap, Hk, Hu.
Qed.

(** A created task, run: one forward to its node, whose URL stays; no
    exception leaves the task. *)
Lemma run_task_forward `{Runtime} net k data r l pd ns x :
  nodes r = Some ns -> ns !! k = Some x ->
  exists r' l' ns',
    run_task net (k, data) (mkWorld r l pd) = (Return tt, mkWorld r' l' pd)
    /\ nodes r' = Some ns'
    /\ url <$> ns' = url <$> ns
    /\ forwards l' = forwards l ++ [Post (url x) (RawData data) 3].
Proof.
  intros Hns Hk. destruct r as [us ns0 ac dc i]. cbn in Hns. subst ns0.
  destruct x as [u s].
  unfold run_task, try_except, mbind, Py_bind, bind. cbn [fst snd].
  destruct (net k) as [ text st headers | e ].
  - erewrite on_node_run; [ | exact Hk | apply do_request_responded ].
    eexists _, _, _. split; [ reflexivity | ]. split; [ reflexivity | ].
    split; [ by eapply urls_insert_same | ].
    by rewrite forwards_app.
  - destruct (offline_class e) eqn:He.
    + erewrite on_node_run; [ | exact Hk | by apply do_request_offline ].
      eexists _, _, _. split; [ reflexivity | ]. split; [ reflexivity | ].
      split; [ by eapply urls_insert_same | ].
      rewrite forwards_app. cbn. by rewrite forwards_transition.
    + erewrite on_node_run; [ | exact Hk | by apply do_request_raises ].
      eexists _, _, _. split; [ reflexivity | ]. split; [ reflexivity | ].
      split; [ by eapply urls_insert_same | ].
      by rewrite forwards_app.
Qed.

Lemma run_tasks_forwards `{Runtime} net data ts : forall r l pd ns,
  nodes r = Some ns ->
  (forall j, j ∈ ts -> j < length ns) ->
  exists r' l',
    run_tasks net (map (fun j => (j, data)) ts) (mkWorld r l pd)
    = (Return tt, mkWorld r' l' pd)
    /\ forwards l'
       = forwards l ++ map (fun j => Post (url_of ns j) (RawData data) 3) ts.
Proof.
  induction ts as [ | k rest IH ]; intros r l pd ns Hns Hvalid.
  - eexists _, _. split; [ reflexivity | ]. cbn. by rewrite app_nil_r.
  - destruct (lookup_lt_is_Some_2 ns k) as [x Hx].
    { apply Hvalid. by left. }
    destruct (run_task_forward net k data r l pd ns x Hns Hx)
      as (r1 & l1 & ns1 & Hrun & Hns1 & Hurls & Hfw).
    destruct (IH r1 l1 pd ns1 Hns1) as (r2 & l2 & Hrest & Hfw2).
    { intros j Hj.
      rewrite <- (length_fmap url ns1), Hurls, length_fmap.
      apply Hvalid. by right. }
    exists r2, l2. split.
    + cbn [map run_tasks]. unfold mbind, Py_bind, bind.
      by rewrite Hrun, Hrest.
    + rewrite Hfw2, Hfw, <- app_assoc. cbn [map app].
      f_equal. f_equal.
      * unfold url_of. by rewrite Hx.
      * apply map_ext. intros j. by rewrite (url_of_ext ns ns1).
Qed.

Lemma count_alive_pos ns :
  1 <= count_alive ns -> exists k nd, ns !! k = Some nd /\ status nd = true.
Proof.
  unfold count_alive. induction ns as [ | x rest IH ]; cbn; [ lia | ].
  destruct (status x) eqn:Hs.
  - intros _. by exists 0, x.
  - intros Hpos. destruct (IH Hpos) as (k & nd & Hk & Hnd). by exists (S k), nd.
Qed.

Lemma other_alive_elem k ns j :
  j ∈ nodes_where (other_alive k) 0 ns
  <-> j <> k /\ exists x, ns !! j = Some x /\ status x = true.
Proof.
  rewrite nodes_where_elem, Nat.sub_0_r. unfold other_alive. split.
  - intros (_ & x & Hx & [Hs Hne%negb_true_iff%Nat.eqb_neq]%andb_true_iff).
    eauto.
  - intros (Hne & x & Hx & Hs). split; [ lia | ].
    exists x. split; [ done | ].
    apply andb_true_iff. split; [ done | ].
    by apply negb_true_iff, Nat.eqb_neq.
Qed.

Lemma other_alive_insert x ns : forall o j,
  nodes_where (other_alive (o + j)) o (<[j := x]> ns)
  = nodes_where (other_alive (o + j)) o ns.
Proof.
  induction ns as [ | y rest IH ]; intros o j; [ done | ].
  destruct j as [ | j ]; simpl.
  - rewrite Nat.add_0_r.
    assert (Hself : forall z, other_alive o o z = false).
    { intros z. unfold other_alive. by rewrite Nat.eqb_refl, andb_false_r. }
    by rewrite !Hself.
  - replace (o + S j) with (S o + j) by lia. rewrite IH.
    by destruct (other_alive (S o + j) o y).
Qed.

(** X8: the [engine_forkchoiceUpdatedV1] branch has no test for a
    [ServerOffline] result. When the awaited forward fails with a
    connectivity-class error, the tasks for the other alive nodes are
    created all the same, [r[1]] then raises [TypeError], and the caller
    is sent nothing. *)
Lemma forkchoice_offline_primary_raises `{Runtime} net req us ns ac dc i l pd :
  method req = "engine_forkchoiceUpdatedV1" ->
  ac <> 0 ->
  (exists k nd, ns !! k = Some nd /\ status nd = true) ->
  length ns <= recursion_limit ->
  exists k nd,
    ns !! k = Some nd /\ status nd = true
    /\ forall e, net k = Failed e -> offline_class e = true ->
         exists w',
           route net req (mkWorld (ready us ns ac dc i) l pd)
           = (Raise TypeError, w')
           /\ pending w'
              = pd ++ map (fun j => (j, body req))
                        (nodes_where (other_alive k) 0 ns)
           /\ caller_response (log w') = caller_response l.
Proof.
  intros Hm Hac Halive Hlim.
  destruct (selection_returns_alive us ns ac dc l pd Hac i recursion_limit
              Halive Hlim) as (k & nd & Hsel & Hk & Hs).
  exists k, nd. split; [ done | ]. split; [ done | ].
  intros e Hnet He.
  unfold route. rewrite Hm. cbn [String.eqb Ascii.eqb Bool.eqb].
  unfold mbind, Py_bind, bind. unfold get_execution_node in Hsel |- *.
  rewrite Hsel, Hnet.
  destruct nd as [u s]. cbn in Hs. subst s. unfold ready.
  erewrite on_node_run; [ | exact Hk | by apply do_request_offline ].
  unfold self_nodes, getattr. cbn [router nodes].
  rewrite create_tasks_run. cbn.
  eexists. split; [ reflexivity | ]. cbn [pending log].
  split; [ by rewrite (other_alive_insert _ ns 0 k) | ].
  rewrite !caller_response_app. cbn.
  by rewrite caller_response_tasks, !app_nil_r.
Qed.

(** C4, as stated, fails: it promises the response and the [n - 1]
    further forwards for every [engine_forkchoiceUpdatedV1] request. With
    three alive nodes and a selected node whose forward times out (an
    exception that [do_request] does not catch), [route] ends with that
    exception after its one forward: no task has been created, and the
    caller is sent nothing. *)
Lemma forkchoice_unanswered_primary_no_broadcast :
  let req := {| method := "engine_forkchoiceUpdatedV1"; body := "{}" |} in
  let ns := [mkNode "http://a" true; mkNode "http://b" true;
             mkNode "http://c" true] in
  let w := mkWorld (ready ["http://a"; "http://b"; "http://c"] ns 3 0 0)
             [] [] in
  let timeout := fun _ : nat => Failed AsyncioTimeoutError in
  ~ (forall net : nat -> ForwardOutcome,
       caller_response (log (@serve example_runtime net req w).2) <> []
       /\ length (forwards (log (@serve example_runtime net req w).2))
          = 1 + (3 - 1))
  /\ @route example_runtime timeout req w
     = (Raise AsyncioTimeoutError,
        mkWorld (ready ["http://a"; "http://b"; "http://c"] ns 3 0 0)
          [Post "http://a" (RawData "{}") 3] [])
  /\ caller_response (log (@serve example_runtime timeout req w).2) = []
  /\ forwards (log (@serve example_runtime timeout req w).2)
     = [Post "http://a" (RawData "{}") 3].
Proof.
  cbn zeta. split; [ | split; [ reflexivity | split; reflexivity ] ].
  intros Hclaim.
  destruct (Hclaim (fun _ => Failed AsyncioTimeoutError)) as [Hresponse _].
  apply Hresponse. reflexivity.
Qed.

(** C4, amended: for [engine_forkchoiceUpdatedV1] with [n >= 1] alive
    nodes, the selected node [k] gets the one awaited forward, and when it
    answers, its status, headers and text are what the caller is sent, and
    a task is created for each other alive node and for no other: [n - 1]
    tasks, each forwarding the same body once. What the caller is sent is
    the same whatever those forwards meet. *)
Theorem forkchoice_primary_and_broadcast `{Runtime} (req : Request)
    (us : list string) (ns : list NodeInstance) (ac dc i : nat)
    (l : list Event) (n : nat) :
  method req = "engine_forkchoiceUpdatedV1" ->
  count_alive ns = n ->
  1 <= n ->
  count_alive ns <= ac ->
  length ns <= recursion_limit ->
  let w := mkWorld (ready us ns ac dc i) l [] in
  exists (k : nat) (nd : NodeInstance) (others : list nat),
    get_execution_node w = (Return k, mkWorld (ready us ns ac dc k) l [])
    /\ ns !! k = Some nd /\ status nd = true
    /\ others = nodes_where (other_alive k) 0 ns
    /\ length others = n - 1
    /\ NoDup others
    /\ (forall j, j ∈ others <->
          j <> k /\ exists x, ns !! j = Some x /\ status x = true)
    /\ forall net text st headers,
         net k = Responded text st headers ->
         let answer := [Respond st (Some (loads (dumps headers))); Send text] in
         route net req w
         = (Return tt,
            mkWorld (ready us ns ac dc k)
              (l ++ Post (url nd) (RawData (body req)) 3
                 :: map (fun j => CreateTask j (body req)) others ++ answer)
              (map (fun j => (j, body req)) others))
         /\ caller_response (log (serve net req w).2)
            = caller_response l ++ answer
         /\ forwards (log (serve net req w).2)
            = forwards l
              ++ Post (url nd) (RawData (body req)) 3
                 :: map (fun j => Post (url_of ns j) (RawData (body req)) 3)
                      others.
Proof.
  intros Hm Hn Hpos Hac Hlim w.
  assert (Hne : ac <> 0) by lia.
  assert (Halive : exists k nd, ns !! k = Some nd /\ status nd = true)
    by (apply count_alive_pos; lia).
  destruct (selection_returns_alive us ns ac dc l [] Hne i recursion_limit
              Halive Hlim) as (k & nd & Hsel & Hk & Hs).
  exists k, nd, (nodes_where (other_alive k) 0 ns).
  split; [ exact Hsel | ]. split; [ done | ]. split; [ done | ].
  split; [ done | ].
  split.
  { pose proof (other_alive_count k ns 0 nd) as Hc.
    rewrite Nat.sub_0_r in Hc. specialize (Hc ltac:(lia) Hk Hs). lia. }
  split; [ apply nodes_where_NoDup | ].
  split; [ intros j; apply other_alive_elem | ].
  intros net text st headers Hnet answer.
  assert (Hroute :
    route net req w
    = (Return tt,
       mkWorld (ready us ns ac dc k)
         (l ++ Post (url nd) (RawData (body req)) 3
            :: map (fun j => CreateTask j (body req))
                 (nodes_where (other_alive k) 0 ns) ++ answer)
         (map (fun j => (j, body req)) (nodes_where (other_alive k) 0 ns)))).
  { unfold route. rewrite Hm. cbn [String.eqb Ascii.eqb Bool.eqb].
    unfold mbind, Py_bind, bind. unfold get_execution_node in Hsel.
    unfold get_execution_node, w. rewrite Hsel, Hnet.
    destruct nd as [u s]. unfold ready.
    erewrite on_node_run; [ | exact Hk | apply do_request_responded ].
    rewrite list_insert_id by done.
    unfold self_nodes, getattr. cbn [router nodes].
    rewrite create_tasks_run. unfold send, respond, emit, lift. cbn.
    by rewrite <- !app_assoc. }
  split; [ exact Hroute | ].
  split.
  { rewrite serve_keeps_response, Hroute. cbn [snd log].
    rewrite caller_response_app. f_equal. cbn.
    by autorewrite with log_obs. }
  unfold serve. rewrite Hroute. cbn [snd]. unfold run_pending.
  cbn [pending router log].
  destruct (run_tasks_forwards net (body req)
              (nodes_where (other_alive k) 0 ns)
              (ready us ns ac dc k)
              (l ++ Post (url nd) (RawData (body req)) 3
                 :: map (fun j => CreateTask j (body req))
                      (nodes_where (other_alive k) 0 ns) ++ answer)
              [] ns eq_refl) as (r' & l' & Hrun & Hfw).
  { intros j (_ & x & Hx & _)%other_alive_elem. by eapply lookup_lt_Some. }
  rewrite Hrun. cbn [snd log]. rewrite Hfw.
  rewrite forwards_app. cbn.
  autorewrite with log_obs. cbn. by rewrite <- app_assoc.
Qed.

Lemma forkchoice_primary_and_broadcast_witness :
  let req := {| method := "engine_forkchoiceUpdatedV1"; body := "{}" |} in
  let A := mkNode "http://a" true in
  let B := mkNode "http://b" true in
  let C := mkNode "http://c" true in
  let us := ["http://a"; "http://b"; "http://c"] in
  let w := mkWorld (ready us [A; B; C] 3 0 0) [] [] in
  (method req = "engine_forkchoiceUpdatedV1"
   /\ count_alive [A; B; C] = 3 /\ 1 <= 3 /\ count_alive [A; B; C] <= 3
   /\ length [A; B; C] <= @recursion_limit example_runtime)
  /\ exists (k : nat) (nd : NodeInstance) (others : list nat),
       @get_execution_node example_runtime w
       = (Return k, mkWorld (ready us [A; B; C] 3 0 k) [] [])
       /\ [A; B; C] !! k = Some nd /\ status nd = true
       /\ others = nodes_where (other_alive k) 0 [A; B; C]
       /\ length others = 3 - 1.
Proof.
  cbn zeta. split.
  - repeat split; cbn; lia.
  - destruct (@forkchoice_primary_and_broadcast example_runtime
                {| method := "engine_forkchoiceUpdatedV1"; body := "{}" |}
                ["http://a"; "http://b"; "http://c"]
                [mkNode "http://a" true; mkNode "http://b" true;
                 mkNode "http://c" true]
                3 0 0 [] 3)
      as (k & nd & others & Hsel & Hk & Hs & Hothers & Hlen & _);
      [ reflexivity | reflexivity | lia | cbn; lia | cbn; lia | ].
    exists k, nd, others. repeat split; assumption.
Defined.

Lemma selection_is_sticky_witness :
  let A := mkNode "http://a" true in
  let B := mkNode "http://b" true in
  let A_down := mkNode "http://a" false in
  let us := ["http://a"; "http://b"] in
  (2 <> 0 /\ 2 <= @recursion_limit example_runtime)
  /\ @next_calls example_runtime 3 (mkWorld (ready us [A; B] 2 0 0) [] [])
     = (Return [0; 0; 0], mkWorld (ready us [A; B] 2 0 0) [] [])
  /\ @next_calls example_runtime 4 (mkWorld (ready us [A_down; B] 2 0 0) [] [])
     = (Return [1; 1; 1; 1], mkWorld (ready us [A_down; B] 2 0 1) [] []).
Proof.
  cbn zeta. split; [ split; [ lia | cbn; lia ] | ].
  destruct (@selection_is_sticky example_runtime "http://a" "http://b"
              ["http://a"; "http://b"] 2 0 [] [] 3)
    as (Hstay & _ & _ & Hswitch & _); [ lia | cbn; lia | ].
  split; [ exact Hstay | ].
  apply (Hswitch 2 0 [] []). lia.
Defined.

Lemma failed_forward_frame_witness :
  let A := mkNode "http://a" true in
  let B := mkNode "http://b" true in
  let us := ["http://a"; "http://b"] in
  ([A; B] !! 0 = Some A /\ offline_class ServerTimeoutError = true)
  /\ exists ns' l',
       @on_node ForwardResult 0
         (@do_request example_runtime (Failed ServerTimeoutError) "{}")
         (mkWorld (ready us [A; B] 2 0 0) [] [])
       = (Return ServerOfflineInstance, mkWorld (ready us ns' 2 0 0) l' [])
       /\ ns' !! 0 = Some (mkNode "http://a" false)
       /\ (forall j, j <> 0 -> ns' !! j = [A; B] !! j)
       /\ count_alive ns' <> 2.
Proof.
  cbn zeta. split; [ split; reflexivity | ].
  destruct (@failed_forward_frame example_runtime ["http://a"; "http://b"]
              [mkNode "http://a" true; mkNode "http://b" true] 2 0 0 [] []
              0 (mkNode "http://a" true) ServerTimeoutError "{}")
    as (ns' & l' & Hrun & Hk & Hothers & _ & Hdis & _);
    [ reflexivity | reflexivity | ].
  exists ns', l'. repeat split; try assumption.
  apply Hdis; reflexivity.
Defined.

(** * Further properties *)

(** ** Selection, in general *)

(** One call of [get_execution_node] on a router whose counter is not
    zero. *)
Lemma select_unfold us ns ac dc l pd i budget :
  ac <> 0 ->
  get_execution_node_rec (S budget) (mkWorld (ready us ns ac dc i) l pd)
  = match ns !! normalized ns i with
    | None =>
        (Raise IndexError, mkWorld (ready us ns ac dc (normalized ns i)) l pd)
    | Some nd =>
        if status nd then
          (Return (normalized ns i),
           mkWorld (ready us ns ac dc (normalized ns i)) l pd)
        else
          get_execution_node_rec budget
            (mkWorld (ready us ns ac dc (normalized ns i + 1)) l pd)
    end.
Proof.
  intros Hac. cbn [get_execution_node_rec].
  unfold normalized, ready, self_alive_count, self_index, self_nodes, getattr,
    set_index, update_router. py_run.
  rewrite (proj2 (Nat.eqb_neq ac 0) Hac). cbn.
  destruct (length ns <=? i)%nat; cbn;
    (destruct (ns !! _) as [ nd | ]; [ | done ]);
    by destruct (status nd).
Qed.

(** Whatever a selection ends with, it has changed the index only. *)
Lemma selection_moves_index_only us ns ac dc l pd : forall budget i res w',
  get_execution_node_rec budget (mkWorld (ready us ns ac dc i) l pd) = (res, w') ->
  exists i', w' = mkWorld (ready us ns ac dc i') l pd.
Proof.
  induction budget as [ | budget IH ]; intros i res w' Hrun.
  - inversion Hrun. by exists i.
  - destruct (decide (ac = 0)) as [-> | Hac].
    + rewrite select_none_alive in Hrun. inversion Hrun. by exists i.
    + rewrite select_unfold in Hrun by done.
      destruct (ns !! normalized ns i) as [ nd | ];
        [ destruct (status nd) | ].
      * inversion Hrun. by eexists.
      * by eapply IH.
      * inversion Hrun. by eexists.
Qed.

(** X1: a node that [get_execution_node] returns is a node of the list
    and is alive, and the call has left the router as it was but for the
    index, which is on that node. *)
Theorem selection_returns_only_alive `{Runtime} (us : list string)
    (ns : list NodeInstance) (ac dc i : nat) (l : list Event)
    (pd : list (nat * string)) (k : nat) (w' : World) :
  get_execution_node (mkWorld (ready us ns ac dc i) l pd) = (Return k, w') ->
  w' = mkWorld (ready us ns ac dc k) l pd
  /\ exists nd, ns !! k = Some nd /\ status nd = true.
Proof.
  unfold get_execution_node. generalize recursion_limit as budget.
  intros budget. revert i.
  induction budget as [ | budget IH ]; intros i Hrun; [ done | ].
  destruct (decide (ac = 0)) as [-> | Hac].
  { by rewrite select_none_alive in Hrun. }
  rewrite select_unfold in Hrun by done.
  destruct (ns !! normalized ns i) as [ nd | ] eqn:Hnd; [ | done ].
  destruct (status nd) eqn:Hs.
  - inversion Hrun; subst. eauto.
  - by eapply IH.
Qed.

Lemma selection_returns_only_alive_witness :
  let ns := [mkNode "http://a" false; mkNode "http://b" true] in
  let w := mkWorld (ready ["http://a"; "http://b"] ns 1 1 0) [] [] in
  let w' := mkWorld (ready ["http://a"; "http://b"] ns 1 1 1) [] [] in
  @get_execution_node example_runtime w = (Return 1, w')
  /\ w' = mkWorld (ready ["http://a"; "http://b"] ns 1 1 1) [] []
  /\ exists nd, ns !! 1 = Some nd /\ status nd = true.
Proof.
  cbn zeta. split; [ reflexivity | ].
  apply (@selection_returns_only_alive example_runtime
           ["http://a"; "http://b"]
           [mkNode "http://a" false; mkNode "http://b" true] 1 1 0 [] [] 1).
  reflexivity.
Defined.

(** X2: selection is idempotent. After a call that returned a node, the
    next call returns the same node and changes nothing. *)
Theorem selection_idempotent `{Runtime} (us : list string)
    (ns : list NodeInstance) (ac dc i : nat) (l : list Event)
    (pd : list (nat * string)) (k : nat) (w' : World) :
  get_execution_node (mkWorld (ready us ns ac dc i) l pd) = (Return k, w') ->
  get_execution_node w' = (Return k, w').
Proof.
  intros Hrun.
  assert (Hac : ac <> 0).
  { intros ->. unfold get_execution_node in Hrun.
    destruct recursion_limit; [ done | ].
    by rewrite select_none_alive in Hrun. }
  assert (Hlim : recursion_limit <> 0).
  { intros Hz. unfold get_execution_node in Hrun. by rewrite Hz in Hrun. }
  unfold get_execution_node in *.
  destruct recursion_limit as [ | budget ]; [ done | ].
  clear Hlim. revert i Hrun. generalize (S budget) at 1 as fuel.
  induction fuel as [ | fuel IH ]; intros i Hrun; [ done | ].
  rewrite select_unfold in Hrun by done.
  destruct (ns !! normalized ns i) as [ nd | ] eqn:Hnd; [ | done ].
  destruct (status nd) eqn:Hs; [ | by eapply IH ].
  inversion Hrun; subst.
  by eapply select_alive.
Qed.

Lemma selection_idempotent_witness :
  let ns := [mkNode "http://a" false; mkNode "http://b" true] in
  let w := mkWorld (ready ["http://a"; "http://b"] ns 1 1 0) [] [] in
  let w' := mkWorld (ready ["http://a"; "http://b"] ns 1 1 1) [] [] in
  @get_execution_node example_runtime w = (Return 1, w')
  /\ @get_execution_node example_runtime w' = (Return 1, w').
Proof.
  cbn zeta. split; [ reflexivity | ].
  apply (@selection_idempotent example_runtime ["http://a"; "http://b"]
           [mkNode "http://a" false; mkNode "http://b" true] 1 1 0 [] [] 1).
  reflexivity.
Defined.

(** With a non-zero counter a selection ends with a node, with
    [IndexError] or with [RecursionError]. *)
Lemma selection_past_guard us ns ac dc l pd : forall budget i w',
  ac <> 0 ->
  get_execution_node_rec budget (mkWorld (ready us ns ac dc i) l pd)
  <> (Raise TypeError, w')
  /\ get_execution_node_rec budget (mkWorld (ready us ns ac dc i) l pd)
     <> (Raise OutOfAliveNodes, w').
Proof.
  induction budget as [ | budget IH ]; intros i w' Hac; [ done | ].
  rewrite select_unfold by done.
  destruct (ns !! normalized ns i) as [ nd | ]; [ | done ].
  destruct (status nd); [ done | by apply IH ].
Qed.

(** X3: the guard of [get_execution_node]. The call stops at the guard
    exactly when [alive_count] is zero, whatever the flags of the nodes
    say, and leaves the router untouched; and what the guard's [raise]
    ends with is [TypeError], because [OutOfAliveNodes] derives from no
    exception class. No call ever ends with [OutOfAliveNodes]. *)
Theorem counter_zero_raises_type_error `{Runtime} (us : list string)
    (ns : list NodeInstance) (ac dc i : nat) (l : list Event)
    (pd : list (nat * string)) :
  1 <= recursion_limit ->
  let w := mkWorld (ready us ns ac dc i) l pd in
  ((exists w', get_execution_node w = (Raise TypeError, w')) <-> ac = 0)
  /\ (ac = 0 -> get_execution_node w = (Raise TypeError, w))
  /\ (forall w', get_execution_node w <> (Raise OutOfAliveNodes, w')).
Proof.
  intros Hlim w. unfold get_execution_node, w.
  destruct recursion_limit as [ | budget ]; [ lia | ].
  assert (Hzero : ac = 0 ->
            get_execution_node_rec (S budget)
              (mkWorld (ready us ns ac dc i) l pd)
            = (Raise TypeError, mkWorld (ready us ns ac dc i) l pd)).
  { intros ->. apply select_none_alive. }
  split; [ | split; [ exact Hzero | ] ].
  - split.
    + intros [w' Hrun]. destruct (decide (ac = 0)) as [ | Hac ]; [ done | ].
      by apply (selection_past_guard us ns ac dc l pd (S budget) i w') in Hrun.
    + intros Hac. eexists. by apply Hzero.
  - intros w'. destruct (decide (ac = 0)) as [ Hac | Hac ].
    + by rewrite (Hzero Hac).
    + by apply selection_past_guard.
Qed.

Lemma counter_zero_raises_type_error_witness :
  let ns := [mkNode "http://a" true] in
  let w := mkWorld (ready ["http://a"] ns 0 1 0) [] [] in
  1 <= @recursion_limit example_runtime
  /\ @get_execution_node example_runtime w = (Raise TypeError, w).
Proof.
  cbn zeta. split; [ cbn; lia | ].
  apply (@counter_zero_raises_type_error example_runtime ["http://a"]
           [mkNode "http://a" true] 0 1 0 [] []); [ cbn; lia | reflexivity ].
Defined.

(** X4: with a non-zero counter, an alive node in the list and a
    recursion limit of at least the number of nodes, the selection
    returns an alive node: the first alive node at or after the index (the
    index taken as 0 when it is past the end), or, when there is none up
    to the end of the list, the first alive node of the list. It passes
    dead nodes only. *)
Theorem selection_takes_next_alive `{Runtime} (us : list string)
    (ns : list NodeInstance) (ac dc i : nat) (l : list Event)
    (pd : list (nat * string)) :
  ac <> 0 ->
  (exists k nd, ns !! k = Some nd /\ status nd = true) ->
  length ns <= recursion_limit ->
  let dead_between (a b : nat) :=
    forall j x, a <= j < b -> ns !! j = Some x -> status x = false in
  exists k nd,
    get_execution_node (mkWorld (ready us ns ac dc i) l pd)
    = (Return k, mkWorld (ready us ns ac dc k) l pd)
    /\ ns !! k = Some nd
    /\ status nd = true
    /\ ((normalized ns i <= k /\ dead_between (normalized ns i) k)
        \/ (k < normalized ns i
            /\ dead_between (normalized ns i) (length ns)
            /\ dead_between 0 k)).
Proof.
  intros Hac (k0 & nd0 & Hk0 & Hs0) Hb dead_between.
  unfold get_execution_node, dead_between.
  generalize dependent recursion_limit. intros budget Hb.
  pose (P := fun nd : NodeInstance => status nd = true).
  destruct (list_find P ns) as [[p ndp] | ] eqn:Hfind; cycle 1.
  { apply list_find_None in Hfind.
    rewrite Forall_lookup in Hfind. by destruct (Hfind k0 nd0 Hk0). }
  apply list_find_Some in Hfind as (Hp & Hps & Hfirst).
  assert (Hfirst' : forall j x, 0 <= j < 0 + p -> ns !! j = Some x ->
                                status x = false).
  { intros j x Hj Hx. apply not_true_is_false. eapply Hfirst; [ done | lia ]. }
  apply lookup_lt_Some in Hp as Hplt.
  unfold normalized.
  destruct (length ns <=? i)%nat eqn:Hwrap.
  { apply Nat.leb_le in Hwrap.
    destruct budget as [ | budget ]; [ lia | ].
    rewrite select_wrap by done.
    exists p, ndp. split; [ | split; [ exact Hp | split; [ exact Hps | ] ] ].
    - apply (scan_forward us ns ac dc l pd Hac p 0 (S budget) ndp);
        [ done | done | done | lia ].
    - left. split; [ lia | ]. intros j x Hj. apply Hfirst'. lia. }
  apply Nat.leb_gt in Hwrap.
  destruct (list_find P (drop i ns)) as [[d nd] | ] eqn:Hfrom.
  - apply list_find_Some in Hfrom as (Hd & Hds & Hbefore).
    rewrite lookup_drop in Hd.
    assert (Hdead : forall j x, i <= j < i + d -> ns !! j = Some x ->
                                status x = false).
    { intros j x Hj Hx. apply not_true_is_false.
      apply (Hbefore (j - i) x); [ | lia ].
      rewrite lookup_drop. by replace (i + (j - i)) with j by lia. }
    apply lookup_lt_Some in Hd as Hdlt.
    exists (i + d), nd.
    split; [ | split; [ exact Hd | split; [ exact Hds | ] ] ].
    + apply (scan_forward us ns ac dc l pd Hac d i budget nd);
        [ done | done | done | lia ].
    + left. split; [ lia | done ].
  - apply list_find_None in Hfrom. rewrite Forall_lookup in Hfrom.
    assert (Hend : forall j x, i <= j -> ns !! j = Some x -> status x = false).
    { intros j x Hj Hx. apply not_true_is_false.
      apply (Hfrom (j - i) x).
      rewrite lookup_drop. by replace (i + (j - i)) with j by lia. }
    assert (p < i).
    { destruct (decide (p < i)); [ done | ].
      assert (status ndp = false) by (apply (Hend p ndp); [ lia | done ]).
      unfold P in Hps. congruence. }
    exists p, ndp. split; [ | split; [ exact Hp | split; [ exact Hps | ] ] ].
    + apply (scan_around us ns ac dc l pd Hac p ndp (length ns - i) i budget);
        [ lia | done | | done | done | lia ].
      intros j x Hj. apply Hfirst'. lia.
    + right. split; [ done | ]. split.
      * intros j x Hj. apply Hend. lia.
      * intros j x Hj. apply Hfirst'. lia.
Qed.

Lemma selection_takes_next_alive_witness :
  let ns := [mkNode "http://a" true; mkNode "http://b" false;
             mkNode "http://c" false] in
  let us := ["http://a"; "http://b"; "http://c"] in
  (2 <> 0
   /\ (exists k nd, ns !! k = Some nd /\ status nd = true)
   /\ length ns <= @recursion_limit example_runtime)
  /\ exists k nd,
       @get_execution_node example_runtime (mkWorld (ready us ns 2 1 1) [] [])
       = (Return k, mkWorld (ready us ns 2 1 k) [] [])
       /\ ns !! k = Some nd
       /\ status nd = true
       /\ ((normalized ns 1 <= k
            /\ forall j x, normalized ns 1 <= j < k -> ns !! j = Some x ->
                           status x = false)
           \/ (k < normalized ns 1
               /\ (forall j x, normalized ns 1 <= j < length ns ->
                               ns !! j = Some x -> status x = false)
               /\ forall j x, 0 <= j < k -> ns !! j = Some x ->
                              status x = false)).
Proof.
  cbn zeta.
  assert (Halive : exists k nd,
            [mkNode "http://a" true; mkNode "http://b" false;
             mkNode "http://c" false] !! k = Some nd /\ status nd = true).
  { exists 0, (mkNode "http://a" true). split; reflexivity. }
  split; [ split; [ lia | split; [ exact Halive | cbn; lia ] ] | ].
  apply (@selection_takes_next_alive example_runtime
           ["http://a"; "http://b"; "http://c"]
           [mkNode "http://a" true; mkNode "http://b" false;
            mkNode "http://c" false] 2 1 1 [] []);
    [ lia | exact Halive | cbn; lia ].
Defined.

(** ** Forwards and routing, in general *)

(** X5: [do_request] never raises an exception of the classes its
    [except] clause lists. An exception leaves it only when the forward
    failed with another class, and then the node is as it was: not marked
    offline, and only the call was logged. *)
Theorem do_request_raises_only_unlisted `{Runtime} (o : ForwardOutcome)
    (data : string) (c c' : NodeCtx) (e : Exn) :
  do_request o data c = (Raise e, c') ->
  o = Failed e
  /\ offline_class e = false
  /\ self c' = self c
  /\ nlog c' = nlog c ++ [Post (url (self c)) (RawData data) 3].
Proof.
  destruct c as [[u s] l]. destruct o as [ text st headers | e0 ].
  - by rewrite do_request_responded.
  - destruct (offline_class e0) eqn:He.
    + by rewrite do_request_offline.
    + rewrite do_request_raises by done. intros [= <- <-]. done.
Qed.

Lemma do_request_raises_only_unlisted_witness :
  let c := mkNodeCtx (mkNode "http://a" true) [] in
  let c' := mkNodeCtx (mkNode "http://a" true)
              [Post "http://a" (RawData "{}") 3] in
  @do_request example_runtime (Failed AsyncioTimeoutError) "{}" c
  = (Raise AsyncioTimeoutError, c')
  /\ offline_class AsyncioTimeoutError = false
  /\ self c' = self c.
Proof.
  cbn zeta.
  destruct (@do_request_raises_only_unlisted example_runtime
              (Failed AsyncioTimeoutError) "{}"
              (mkNodeCtx (mkNode "http://a" true) [])
              (mkNodeCtx (mkNode "http://a" true)
                 [Post "http://a" (RawData "{}") 3])
              AsyncioTimeoutError eq_refl) as (_ & Hclass & Hself & _).
  split; [ reflexivity | ]. split; assumption.
Defined.

(** X6: for a method other than [engine_forkchoiceUpdatedV1], when the
    selected node answers, the caller is sent that node's status, its
    headers (serialized by [do_request], parsed back by [route]) and its
    text, after exactly one forward; no task is created and no node or
    counter changes. [do_engine_route] does the same for a method that is
    not [engine_getPayloadV1] either. *)
Theorem single_node_relay `{Runtime} (req : Request) (us : list string)
    (ns : list NodeInstance) (ac dc i : nat) (l : list Event)
    (pd : list (nat * string)) :
  method req <> "engine_forkchoiceUpdatedV1" ->
  ac <> 0 ->
  (exists k nd, ns !! k = Some nd /\ status nd = true) ->
  length ns <= recursion_limit ->
  exists k nd,
    ns !! k = Some nd /\ status nd = true
    /\ forall net text st headers,
         net k = Responded text st headers ->
         let after :=
           mkWorld (ready us ns ac dc k)
             (l ++ [Post (url nd) (RawData (body req)) 3;
                    Respond st (Some (loads (dumps headers)));
                    Send text])
             pd in
         route net req (mkWorld (ready us ns ac dc i) l pd) = (Return tt, after)
         /\ (method req <> "engine_getPayloadV1" ->
             do_engine_route net req (mkWorld (ready us ns ac dc i) l pd)
             = (Return tt, after)).
Proof.
  intros Hfc Hac Halive Hlim.
  destruct (selection_returns_alive us ns ac dc l pd Hac i recursion_limit
              Halive Hlim) as (k & nd & Hsel & Hk & Hs).
  exists k, nd. split; [ done | ]. split; [ done | ].
  intros net text st headers Hnet after.
  assert (Hroute :
    route net req (mkWorld (ready us ns ac dc i) l pd) = (Return tt, after)).
  { apply String.eqb_neq in Hfc.
    unfold route. rewrite Hfc.
    unfold mbind, Py_bind, bind. unfold get_execution_node in Hsel |- *.
    rewrite Hsel, Hnet.
    destruct nd as [u s]. unfold ready.
    erewrite on_node_run; [ | exact Hk | apply do_request_responded ].
    rewrite list_insert_id by done.
    unfold after, send, respond, emit, lift. cbn.
    by rewrite <- !app_assoc. }
  split; [ exact Hroute | ].
  intros Hgp. apply String.eqb_neq in Hgp.
  unfold do_engine_route. by rewrite Hgp.
Qed.

Lemma single_node_relay_witness :
  let req := {| method := "eth_blockNumber"; body := "{}" |} in
  let ns := [mkNode "http://a" true] in
  (method req <> "engine_forkchoiceUpdatedV1" /\ 1 <> 0
   /\ (exists k nd, ns !! k = Some nd /\ status nd = true)
   /\ length ns <= @recursion_limit example_runtime)
  /\ exists k nd,
       ns !! k = Some nd /\ status nd = true
       /\ forall net text st headers,
            net k = Responded text st headers ->
            @route example_runtime net req
              (mkWorld (ready ["http://a"] ns 1 0 0) [] [])
            = (Return tt,
               mkWorld (ready ["http://a"] ns 1 0 k)
                 ([] ++ [Post (url nd) (RawData (body req)) 3;
                         Respond st (Some (@loads example_runtime
                                             (@dumps example_runtime headers)));
                         Send text])
                 []).
Proof.
  cbn zeta.
  assert (Halive : exists k nd,
            [mkNode "http://a" true] !! k = Some nd /\ status nd = true).
  { exists 0, (mkNode "http://a" true). split; reflexivity. }
  split; [ split; [ discriminate | split; [ lia | split;
            [ exact Halive | cbn; lia ] ] ] | ].
  destruct (@single_node_relay example_runtime
              {| method := "eth_blockNumber"; body := "{}" |}
              ["http://a"] [mkNode "http://a" true] 1 0 0 [] [])
    as (k & nd & Hk & Hs & Hrelay);
    [ discriminate | lia | exact Halive | cbn; lia | ].
  exists k, nd. split; [ exact Hk | ]. split; [ exact Hs | ].
  intros net text st headers Hnet.
  exact (proj1 (Hrelay net text st headers Hnet)).
Defined.

(** X7: when the awaited forward fails with an exception that
    [do_request] does not catch, [route] ends with that exception, for
    every method: the caller is sent nothing, the node is not marked
    offline, and no task is created, for [engine_forkchoiceUpdatedV1]
    either. *)
Theorem uncaught_forward_failure_propagates `{Runtime} (req : Request)
    (us : list string) (ns : list NodeInstance) (ac dc i : nat)
    (l : list Event) (pd : list (nat * string)) :
  ac <> 0 ->
  (exists k nd, ns !! k = Some nd /\ status nd = true) ->
  length ns <= recursion_limit ->
  exists k nd,
    ns !! k = Some nd /\ status nd = true
    /\ forall net e,
         net k = Failed e -> offline_class e = false ->
         route net req (mkWorld (ready us ns ac dc i) l pd)
         = (Raise e,
            mkWorld (ready us ns ac dc k)
              (l ++ [Post (url nd) (RawData (body req)) 3]) pd).
Proof.
  intros Hac Halive Hlim.
  destruct (selection_returns_alive us ns ac dc l pd Hac i recursion_limit
              Halive Hlim) as (k & nd & Hsel & Hk & Hs).
  exists k, nd. split; [ done | ]. split; [ done | ].
  intros net e Hnet He.
  unfold route, mbind, Py_bind, bind.
  unfold get_execution_node in Hsel |- *.
  destruct nd as [u s]. unfold ready in *.
  destruct (String.eqb (method req) "engine_forkchoiceUpdatedV1");
    rewrite Hsel, Hnet;
    (erewrite on_node_run; [ | exact Hk | by apply do_request_raises ]);
    by rewrite list_insert_id.
Qed.

Lemma uncaught_forward_failure_propagates_witness :
  let req := {| method := "engine_forkchoiceUpdatedV1"; body := "{}" |} in
  let ns := [mkNode "http://a" true; mkNode "http://b" true] in
  let us := ["http://a"; "http://b"] in
  (2 <> 0 /\ (exists k nd, ns !! k = Some nd /\ status nd = true)
   /\ length ns <= @recursion_limit example_runtime)
  /\ exists k nd,
       ns !! k = Some nd /\ status nd = true
       /\ @route example_runtime (fun _ => Failed AsyncioTimeoutError) req
            (mkWorld (ready us ns 2 0 0) [] [])
          = (Raise AsyncioTimeoutError,
             mkWorld (ready us ns 2 0 k)
               ([] ++ [Post (url nd) (RawData (body req)) 3]) []).
Proof.
  cbn zeta.
  assert (Halive : exists k nd,
            [mkNode "http://a" true; mkNode "http://b" true] !! k = Some nd
            /\ status nd = true).
  { exists 0, (mkNode "http://a" true). split; reflexivity. }
  split; [ split; [ lia | split; [ exact Halive | cbn; lia ] ] | ].
  destruct (@uncaught_forward_failure_propagates example_runtime
              {| method := "engine_forkchoiceUpdatedV1"; body := "{}" |}
              ["http://a"; "http://b"]
              [mkNode "http://a" true; mkNode "http://b" true] 2 0 0 [] [])
    as (k & nd & Hk & Hs & Hraise); [ lia | exact Halive | cbn; lia | ].
  exists k, nd. split; [ exact Hk | ]. split; [ exact Hs | ].
  by apply Hraise.
Defined.

Lemma forkchoice_offline_primary_raises_witness :
  let req := {| method := "engine_forkchoiceUpdatedV1"; body := "{}" |} in
  let ns := [mkNode "http://a" true; mkNode "http://b" true] in
  let us := ["http://a"; "http://b"] in
  let net := fun _ : nat => Failed ServerTimeoutError in
  (method req = "engine_forkchoiceUpdatedV1" /\ 2 <> 0
   /\ (exists k nd, ns !! k = Some nd /\ status nd = true)
   /\ length ns <= @recursion_limit example_runtime)
  /\ exists k nd w',
       ns !! k = Some nd /\ status nd = true
       /\ @route example_runtime net req (mkWorld (ready us ns 2 0 0) [] [])
          = (Raise TypeError, w')
       /\ pending w'
          = [] ++ map (fun j => (j, body req))
                    (nodes_where (other_alive k) 0 ns)
       /\ caller_response (log w') = caller_response [].
Proof.
  cbn zeta.
  assert (Halive : exists k nd,
            [mkNode "http://a" true; mkNode "http://b" true] !! k = Some nd
            /\ status nd = true).
  { exists 0, (mkNode "http://a" true). split; reflexivity. }
  split; [ split; [ reflexivity | split; [ lia | split;
            [ exact Halive | cbn; lia ] ] ] | ].
  destruct (@forkchoice_offline_primary_raises example_runtime
              (fun _ => Failed ServerTimeoutError)
              {| method := "engine_forkchoiceUpdatedV1"; body := "{}" |}
              ["http://a"; "http://b"]
              [mkNode "http://a" true; mkNode "http://b" true] 2 0 0 [] [])
    as (k & nd & Hk & Hs & Hraise);
    [ reflexivity | lia | exact Halive | cbn; lia | ].
  destruct (Hraise ServerTimeoutError eq_refl eq_refl)
    as (w' & Hroute & Hpending & Hresp).
  exists k, nd, w'. repeat split; assumption.
Defined.

Lemma selection_fails_after_dead_sweep_witness :
  let probe := fun _ : nat => ProbeFailed ClientConnectionError in
  let w0 := mkWorld (mkRouter ["http://a"] (Some [mkNode "http://a" true])
                       (Some 1) (Some 0) (Some 0)) [] [] in
  ((forall k, probe_healthy (probe k) = false)
   /\ 1 <= @recursion_limit example_runtime)
  /\ @get_execution_node example_runtime (recheck probe w0).2
     = (Raise TypeError, (recheck probe w0).2).
Proof.
  cbn zeta. split; [ split; [ reflexivity | cbn; lia ] | ].
  apply (@selection_fails_after_dead_sweep example_runtime
           (fun _ => ProbeFailed ClientConnectionError)
           ["http://a"] [mkNode "http://a" true] (Some 1) (Some 0) (Some 0)
           [] []); [ reflexivity | cbn; lia ].
Defined.




(** ** The counters bound the flags *)

Lemma consistent_router w w' : router w' = router w -> consistent w -> consistent w'.
Proof. unfold consistent. by intros ->. Qed.

Lemma keeps_ret {A} (a : A) : keeps (ret a).
Proof. by intros w res w' Hw [= _ <-]. Qed.

Lemma keeps_raise {A} e : keeps (@raise World A e).
Proof. by intros w res w' Hw [= _ <-]. Qed.

Lemma keeps_lift {A} (r : Result A) : keeps (lift r).
Proof. by intros w res w' Hw [= _ <-]. Qed.

Lemma keeps_getattr {A} name (field : NodeRouter -> option A) :
  keeps (getattr name field).
Proof.
  intros w res w' Hw. unfold getattr.
  by destruct (field (router w)); intros [= _ <-].
Qed.

Lemma keeps_emit e : keeps (emit e).
Proof. intros w res w' Hw [= _ <-]. by eapply consistent_router. Qed.

Lemma keeps_bind {A B} (m : Py World A) (k : A -> Py World B) :
  keeps m -> (forall a, keeps (k a)) -> keeps (m ≫= k).
Proof.
  intros Hm Hk w res w' Hw. unfold mbind, Py_bind, bind.
  destruct (m w) as [[a | e] w1] eqn:Hrun.
  - apply (Hk a). by eapply Hm.
  - intros [= _ <-]. by eapply Hm.
Qed.

Lemma keeps_try_except {A} (body handler : Py World A) caught :
  keeps body -> keeps handler -> keeps (try_except body caught handler).
Proof.
  intros Hbody Hhandler w res w' Hw. unfold try_except.
  destruct (body w) as [[a | e] w1] eqn:Hrun.
  - intros [= _ <-]. by eapply Hbody.
  - destruct (caught e).
    + apply Hhandler. by eapply Hbody.
    + intros [= _ <-]. by eapply Hbody.
Qed.

Lemma keeps_create_tasks ts data : keeps (create_tasks ts data).
Proof.
  intros [r l pd] res w' Hw. rewrite create_tasks_run. intros [= _ <-].
  by eapply consistent_router.
Qed.

Lemma keeps_selection budget : keeps (get_execution_node_rec budget).
Proof.
  intros [r l pd] res w' (us & ns & ac & dc & i & Hr & Hbound & Hsum) Hrun.
  cbn in Hr. subst r.
  apply selection_moves_index_only in Hrun as [i' ->].
  by exists us, ns, ac, dc, i'.
Qed.

Lemma keeps_forward `{Runtime} k o data : keeps (on_node k (do_request o data)).
Proof.
  intros [r l pd] res w' (us & ns & ac & dc & i & Hr & Hbound & Hsum) Hrun.
  cbn in Hr. subst r.
  destruct (ns !! k) as [[u s] | ] eqn:Hk; cycle 1.
  { unfold on_node in Hrun. cbn in Hrun. rewrite Hk in Hrun.
    inversion Hrun. by exists us, ns, ac, dc, i. }
  assert (Hsame : <[k := mkNode u s]> ns = ns) by by apply list_insert_id.
  unfold ready in Hrun.
  destruct o as [ text st headers | e ];
    [ | destruct (offline_class e) eqn:He ].
  - erewrite on_node_run in Hrun;
      [ | exact Hk | apply do_request_responded ].
    inversion Hrun. rewrite Hsame. by exists us, ns, ac, dc, i.
  - erewrite on_node_run in Hrun;
      [ | exact Hk | by apply do_request_offline ].
    inversion Hrun.
    exists us, (<[k := mkNode u false]> ns), ac, dc, i.
    split; [ done | ]. rewrite length_insert. split; [ | done ].
    pose proof (count_alive_insert_offline ns k (mkNode u s) Hk) as Hc.
    cbn [url] in Hc. lia.
  - erewrite on_node_run in Hrun;
      [ | exact Hk | by apply do_request_raises ].
    inversion Hrun. rewrite Hsame. by exists us, ns, ac, dc, i.
Qed.

Create HintDb keeps_db.
#[local] Hint Resolve keeps_ret keeps_raise keeps_lift keeps_getattr
  keeps_emit keeps_create_tasks keeps_selection keeps_forward : keeps_db.

Ltac keeps_steps :=
  repeat first
    [ apply keeps_bind; [ | intros ? ]
    | apply keeps_try_except
    | progress eauto with keeps_db ].

Lemma keeps_route `{Runtime} net req : keeps (route net req).
Proof.
  unfold route, get_execution_node, self_nodes, respond, send.
  destruct (String.eqb (method req) "engine_forkchoiceUpdatedV1").
  - keeps_steps.
  - apply keeps_bind; [ keeps_steps | intros n ].
    apply keeps_bind; [ keeps_steps | intros r ].
    destruct (isinstance_ServerOffline r); keeps_steps.
Qed.

Lemma keeps_run_tasks `{Runtime} net ts : keeps (run_tasks net ts).
Proof.
  induction ts as [ | t rest IH ]; cbn [run_tasks]; [ apply keeps_ret | ].
  apply keeps_bind; [ | intros _; exact IH ].
  unfold run_task. keeps_steps.
Qed.

Lemma keeps_run_pending `{Runtime} net : keeps (run_pending net).
Proof.
  intros w res w' Hw. unfold run_pending.
  apply keeps_run_tasks. by eapply consistent_router.
Qed.

Lemma recheck_consistent probe us ns ac dc i l pd :
  consistent (recheck probe (mkWorld (mkRouter us (Some ns) ac dc i) l pd)).2.
Proof.
  rewrite recheck_run. cbn [snd]. eexists _, _, _, _, _.
  split; [ reflexivity | ]. rewrite sweep_results_count.
  pose proof (count_alive_le_length (sweep_nodes probe 0 ns)). lia.
Qed.

(** X11: the invariant of the router. Once its counters bound its flags
    ([alive_count] at least the number of alive nodes, [alive_count +
    dead_count] the number of nodes, every attribute assigned), they
    still do after a request, however the handler ends and whatever the
    forwards and the created tasks meet, and after a sweep; and [setup]
    leaves the router so. *)
Theorem requests_keep_router_consistent `{Runtime}
    (net : nat -> ForwardOutcome) (req : Request)
    (probe : nat -> ProbeOutcome) (us0 : list string) (w : World) :
  consistent w ->
  consistent (route net req w).2
  /\ consistent (do_engine_route net req w).2
  /\ consistent (serve net req w).2
  /\ consistent (recheck probe w).2
  /\ consistent (setup probe (fresh_world us0)).2.
Proof.
  intros Hw.
  assert (Hroute : consistent (route net req w).2).
  { destruct (route net req w) as [res w'] eqn:Hrun.
    by eapply keeps_route. }
  split; [ exact Hroute | ].
  split.
  { unfold do_engine_route.
    destruct (String.eqb (method req) "engine_getPayloadV1"); done. }
  split.
  { unfold serve. destruct (route net req w) as [res w'] eqn:Hrun.
    cbn [snd] in *.
    destruct (run_pending net w') as [res' w''] eqn:Hrun'.
    by eapply keeps_run_pending. }
  split.
  { destruct Hw as (us & ns & ac & dc & i & Hr & _).
    destruct w as [r l pd]. cbn in Hr. subst r. apply recheck_consistent. }
  pose proof (setup_run probe us0) as Hsetup. cbn zeta in Hsetup.
  rewrite Hsetup. cbn [snd]. eexists _, _, _, _, _.
  split; [ reflexivity | ].
  pose proof (count_alive_le_length
                (sweep_nodes probe 0 (map NodeInstance_init us0))). lia.
Qed.

Lemma requests_keep_router_consistent_witness :
  let w := mkWorld (ready ["http://a"; "http://b"]
                      [mkNode "http://a" true; mkNode "http://b" false]
                      1 1 0) [] [] in
  let req := {| method := "engine_forkchoiceUpdatedV1"; body := "{}" |} in
  let net := fun _ : nat => Failed ServerTimeoutError in
  consistent w /\ consistent (@serve example_runtime net req w).2.
Proof.
  cbn zeta.
  assert (Hw : consistent
                 (mkWorld (ready ["http://a"; "http://b"]
                             [mkNode "http://a" true; mkNode "http://b" false]
                             1 1 0) [] [])).
  { eexists _, _, _, _, _. split; [ reflexivity | ]. cbn. lia. }
  split; [ exact Hw | ].
  exact (proj1 (proj2 (proj2
           (@requests_keep_router_consistent example_runtime
              (fun _ => Failed ServerTimeoutError)
              {| method := "engine_forkchoiceUpdatedV1"; body := "{}" |}
              (fun _ => ProbeFailed ClientOSError) [] _ Hw)))).
Defined.

(** ** Sweeps, one after another *)

Lemma sweep_nodes_overwrite p1 p2 ns : forall k,
  sweep_nodes p2 k (sweep_nodes p1 k ns) = sweep_nodes p2 k ns.
Proof. induction ns as [ | nd rest IH ]; intros k; cbn; [ done | by rewrite IH ]. Qed.

Lemma sweep_results_overwrite p1 p2 ns : forall k,
  sweep_results p2 k (sweep_nodes p1 k ns) = sweep_results p2 k ns.
Proof. induction ns as [ | nd rest IH ]; intros k; cbn; [ done | by rewrite IH ]. Qed.

Lemma sweep_log_agreeing p1 p2 ns : forall k,
  (forall j, j < length ns ->
     probe_healthy (p1 (k + j)) = probe_healthy (p2 (k + j))) ->
  sweep_log p2 k (sweep_nodes p1 k ns)
  = map (fun nd => Post (url nd) SyncingQuery 10) ns.
Proof.
  induction ns as [ | nd rest IH ]; intros k Hagree; cbn; [ done | ].
  pose proof (Hagree 0 ltac:(cbn; lia)) as H0. rewrite Nat.add_0_r in H0.
  rewrite H0. unfold transition at 1. rewrite Bool.eqb_reflx. cbn.
  f_equal. apply IH. intros j Hj.
  specialize (Hagree (S j) ltac:(cbn; lia)).
  by rewrite Nat.add_succ_r in Hagree.
Qed.

(** X12: sweeps do not accumulate. After two sweeps in a row the nodes,
    the counters and the index are those that the second sweep alone
    would have left; and when the second sweep finds every node as
    healthy as the first did, it changes nothing and dispatches no
    event: it only logs its probes, one per node. *)
Theorem sweeps_overwrite (p1 p2 : nat -> ProbeOutcome) (us : list string)
    (ns : list NodeInstance) (ac dc i : option nat) (l : list Event)
    (pd : list (nat * string)) :
  let w0 := mkWorld (mkRouter us (Some ns) ac dc i) l pd in
  let w1 := (recheck p1 w0).2 in
  let w2 := (recheck p2 w1).2 in
  router w2 = router (recheck p2 w0).2
  /\ ((forall k, k < length ns ->
         probe_healthy (p1 k) = probe_healthy (p2 k)) ->
      router w2 = router w1
      /\ log w2
         = log w1 ++ map (fun nd => Post (url nd) SyncingQuery 10) ns).
Proof.
  cbn zeta. rewrite !recheck_run. cbn [snd]. unfold ready.
  rewrite !recheck_run. cbn [snd router log]. unfold ready.
  rewrite sweep_nodes_overwrite, sweep_results_overwrite.
  split; [ done | ].
  intros Hagree. rewrite sweep_log_agreeing by done. split; [ | done ].
  assert (Hsame : forall k,
            (forall j, j < length ns ->
               probe_healthy (p1 (k + j)) = probe_healthy (p2 (k + j))) ->
            sweep_nodes p2 k ns = sweep_nodes p1 k ns
            /\ sweep_results p2 k ns = sweep_results p1 k ns).
  { clear. induction ns as [ | nd rest IH ]; intros k Hagree; cbn; [ done | ].
    pose proof (Hagree 0 ltac:(cbn; lia)) as H0. rewrite Nat.add_0_r in H0.
    destruct (IH (S k)) as [-> ->].
    { intros j Hj. specialize (Hagree (S j) ltac:(cbn; lia)).
      by rewrite Nat.add_succ_r in Hagree. }
    by rewrite H0. }
  destruct (Hsame 0 Hagree) as [-> ->]. done.
Qed.

Lemma sweeps_overwrite_witness :
  let p := fun _ : nat => ProbeDecoded not_syncing in
  let ns := [mkNode "http://a" false] in
  let w0 := mkWorld (mkRouter ["http://a"] (Some ns) None None None) [] [] in
  (forall k, k < length ns -> probe_healthy (p k) = probe_healthy (p k))
  /\ router (recheck p (recheck p w0).2).2 = router (recheck p w0).2
  /\ log (recheck p (recheck p w0).2).2
     = log (recheck p w0).2 ++ [Post "http://a" SyncingQuery 10].
Proof.
  cbn zeta. split; [ reflexivity | ].
  exact (proj2 (sweeps_overwrite (fun _ => ProbeDecoded not_syncing)
                  (fun _ => ProbeDecoded not_syncing) ["http://a"]
                  [mkNode "http://a" false] None None None [] [])
               (fun k _ => eq_refl)).
Defined.

Lemma sweep_log_dispatches_fresh probe us : forall k,
  List.filter is_dispatch (sweep_log probe k (map NodeInstance_init us))
  = map (fun u => Dispatch "node_online" [u]) (healthy_urls probe k us).
Proof.
  induction us as [ | u rest IH ]; intros k; cbn; [ done | ].
  rewrite List.filter_app, IH. unfold transition.
  by destruct (probe_healthy (probe k)).
Qed.

(** X13: the events of [setup]. Every node is constructed offline, so
    the first sweep dispatches [node_online] once for each node whose
    probe is healthy and never [node_offline]; [node_router_online] is
    dispatched after them, last, and nothing else is. The probes of a
    sweep overlap and their events come as the answers arrive, so the
    [node_online] events are stated up to their order. *)
Theorem setup_dispatches_online_only (probe : nat -> ProbeOutcome)
    (us : list string) :
  exists node_events : list Event,
    List.filter is_dispatch (log (setup probe (fresh_world us)).2)
    = node_events ++ [Dispatch "node_router_online" []]
    /\ node_events
       ≡ₚ map (fun u => Dispatch "node_online" [u]) (healthy_urls probe 0 us)
    /\ forall u, Dispatch "node_offline" [u] ∉ log (setup probe (fresh_world us)).2.
Proof.
  pose proof (setup_run probe us) as Hsetup. cbn zeta in Hsetup.
  rewrite Hsetup. cbn [snd log].
  exists (map (fun u => Dispatch "node_online" [u]) (healthy_urls probe 0 us)).
  assert (Hdispatches :
    List.filter is_dispatch
      (sweep_log probe 0 (map NodeInstance_init us)
         ++ [Dispatch "node_router_online" []])
    = map (fun u => Dispatch "node_online" [u]) (healthy_urls probe 0 us)
      ++ [Dispatch "node_router_online" []]).
  { by rewrite List.filter_app, sweep_log_dispatches_fresh. }
  split; [ exact Hdispatches | ]. split; [ done | ].
  intros u Hin.
  assert (Hin' : Dispatch "node_offline" [u]
                 ∈ List.filter is_dispatch
                     (sweep_log probe 0 (map NodeInstance_init us)
                        ++ [Dispatch "node_router_online" []])).
  { apply list_elem_of_In, List.filter_In. split; [ | done ].
    by apply list_elem_of_In. }
  rewrite Hdispatches in Hin'.
  apply elem_of_app in Hin' as [Hin' | Hin'].
  - apply list_elem_of_fmap in Hin' as (v & Heq & _). discriminate Heq.
  - apply list_elem_of_singleton in Hin'. discriminate Hin'.
Qed.

(** X14: probes that agree do not repeat the event. When a probe finds
    the node as healthy as the probe before it did, it logs its call and
    dispatches nothing. *)
Theorem agreeing_probe_emits_no_event (p p' : ProbeOutcome) (c : NodeCtx) :
  probe_healthy p' = probe_healthy p ->
  emitted (check_alive p') (check_alive p c).2
  = [Post (url (self c)) SyncingQuery 10]
  /\ self (check_alive p' (check_alive p c).2).2 = self (check_alive p c).2.
Proof.
  intros Hagree. destruct c as [[u s] l]. unfold emitted.
  rewrite check_alive_run. cbn [snd nlog self url status].
  rewrite check_alive_run. cbn [snd nlog self url status].
  rewrite Hagree.
  assert (Hsame : forall b, transition u b b = [])
    by (intros b; unfold transition; by rewrite Bool.eqb_reflx).
  rewrite Hsame. split; [ | done ].
  by rewrite drop_length_app.
Qed.

Lemma agreeing_probe_emits_no_event_witness :
  let p := ProbeFailed ServerTimeoutError in
  let p' := ProbeDecoded (JObj [("error", JStr "busy")]) in
  let c := mkNodeCtx (mkNode "http://a" true) [] in
  probe_healthy p' = probe_healthy p
  /\ emitted (check_alive p') (check_alive p c).2
     = [Post "http://a" SyncingQuery 10].
Proof.
  cbn zeta. split; [ reflexivity | ].
  exact (proj1 (agreeing_probe_emits_no_event
                  (ProbeFailed ServerTimeoutError)
                  (ProbeDecoded (JObj [("error", JStr "busy")]))
                  (mkNodeCtx (mkNode "http://a" true) []) eq_refl)).
Defined.

(** ** From construction to the first selection *)

Lemma count_alive_lookup ns : forall k nd,
  ns !! k = Some nd -> status nd = true -> 1 <= count_alive ns.
Proof.
  unfold count_alive.
  induction ns as [ | x rest IH ]; intros k nd Hk Hs; [ done | ].
  destruct k as [ | k ]; simpl in Hk |- *.
  - inversion Hk; subst. rewrite Hs. simpl. lia.
  - specialize (IH k nd Hk Hs). destruct (status x); simpl; lia.
Qed.

Lemma sweep_nodes_fresh_lookup probe us : forall o k u,
  us !! k = Some u ->
  sweep_nodes probe o (map NodeInstance_init us) !! k
  = Some (mkNode u (probe_healthy (probe (o + k)))).
Proof.
  induction us as [ | v rest IH ]; intros o k u Hk; [ done | ].
  destruct k as [ | k ]; simpl in Hk |- *.
  - inversion Hk; subst. by rewrite Nat.add_0_r.
  - rewrite (IH (S o) k u Hk). by rewrite Nat.add_succ_r.
Qed.

(** X15: from construction to the first selection. For a URL list whose
    node [k] is the first with a healthy probe, [__init__] accepts the
    list, and after [setup] the first selection returns node [k], the
    node of URL [us[k]], and leaves the index on it. *)
Theorem first_selection_after_setup `{Runtime} (probe : nat -> ProbeOutcome)
    (us : list string) (k : nat) (u : string) :
  us !! k = Some u ->
  probe_healthy (probe k) = true ->
  (forall j, j < k -> probe_healthy (probe j) = false) ->
  length us <= recursion_limit ->
  NodeRouter_init us = Return (router (fresh_world us))
  /\ exists ns ac dc l,
       (setup probe (fresh_world us)).2 = mkWorld (ready us ns ac dc 0) l []
       /\ get_execution_node (setup probe (fresh_world us)).2
          = (Return k, mkWorld (ready us ns ac dc k) l [])
       /\ ns !! k = Some (mkNode u true).
Proof.
  intros Hk Hhealthy Hfirst Hlim.
  split.
  { destruct us; [ done | reflexivity ]. }
  pose proof (setup_run probe us) as Hsetup. cbn zeta in Hsetup.
  rewrite Hsetup. cbn [snd].
  set (ns := sweep_nodes probe 0 (map NodeInstance_init us)).
  assert (Hnode : ns !! k = Some (mkNode u true)).
  { unfold ns. rewrite (sweep_nodes_fresh_lookup probe us 0 k u Hk).
    cbn [Nat.add]. by rewrite Hhealthy. }
  eexists ns, _, _, _. split; [ reflexivity | ]. split; [ | exact Hnode ].
  assert (Hac : count_alive ns <> 0).
  { pose proof (count_alive_lookup ns k _ Hnode eq_refl). lia. }
  unfold get_execution_node.
  apply (scan_forward us ns (count_alive ns) (length ns - count_alive ns)
           _ [] Hac k 0 recursion_limit (mkNode u true));
    [ | exact Hnode | reflexivity | ].
  - intros j x Hj Hx. unfold ns in Hx.
    apply sweep_nodes_lookup in Hx as [-> _]. apply Hfirst. lia.
  - apply lookup_lt_Some in Hk. lia.
Qed.

Lemma first_selection_after_setup_witness :
  let us := ["http://a"; "http://b"] in
  let probe := fun k : nat =>
    match k with
    | 0 => ProbeFailed ClientConnectionError
    | _ => ProbeDecoded not_syncing
    end in
  (us !! 1 = Some "http://b" /\ probe_healthy (probe 1) = true
   /\ (forall j, j < 1 -> probe_healthy (probe j) = false)
   /\ length us <= @recursion_limit example_runtime)
  /\ exists ns ac dc l,
       (setup probe (fresh_world us)).2 = mkWorld (ready us ns ac dc 0) l []
       /\ @get_execution_node example_runtime (setup probe (fresh_world us)).2
          = (Return 1, mkWorld (ready us ns ac dc 1) l [])
       /\ ns !! 1 = Some (mkNode "http://b" true).
Proof.
  cbn zeta.
  assert (Hfirst : forall j, j < 1 ->
            probe_healthy
              (match j with
               | 0 => ProbeFailed ClientConnectionError
               | _ => ProbeDecoded not_syncing
               end) = false).
  { intros j Hj. destruct j; [ reflexivity | lia ]. }
  split; [ split; [ reflexivity | split; [ reflexivity | split;
            [ exact Hfirst | cbn; lia ] ] ] | ].
  exact (proj2 (@first_selection_after_setup example_runtime
                  (fun k => match k with
                            | 0 => ProbeFailed ClientConnectionError
                            | _ => ProbeDecoded not_syncing
                            end)
                  ["http://a"; "http://b"] 1 "http://b"
                  eq_refl eq_refl Hfirst ltac:(cbn; lia))).
Defined.

(** ** What the created tasks leave *)

Lemma run_task_nodes `{Runtime} net k data us ns ac dc i l pd x :
  ns !! k = Some x ->
  exists l',
    run_task net (k, data) (mkWorld (mkRouter us (Some ns) ac dc i) l pd)
    = (Return tt,
       mkWorld
         (mkRouter us
            (Some (<[k := mkNode (url x)
                             (status x && negb (fails_offline (net k)))]> ns))
            ac dc i)
         l' pd).
Proof.
  intros Hk. destruct x as [u s].
  unfold run_task, try_except, mbind, Py_bind, bind. cbn [fst snd url status].
  destruct (net k) as [ text st headers | e ]; cbn [fails_offline].
  - erewrite on_node_run; [ | exact Hk | apply do_request_responded ].
    rewrite andb_true_r. by eexists.
  - destruct (offline_class e) eqn:He.
    + erewrite on_node_run; [ | exact Hk | by apply do_request_offline ].
      rewrite andb_false_r. by eexists.
    + erewrite on_node_run; [ | exact Hk | by apply do_request_raises ].
      rewrite andb_true_r. by eexists.
Qed.

(** Tasks for distinct nodes: each node that has a task ends offline
    when its forward fails in the [except] clause, and as it was
    otherwise; the nodes without a task are as they were. *)
Lemma run_tasks_nodes `{Runtime} net data ts : forall us ns ac dc i l pd,
  NoDup ts ->
  (forall j, j ∈ ts -> j < length ns) ->
  exists ns' l',
    run_tasks net (map (fun j => (j, data)) ts)
      (mkWorld (mkRouter us (Some ns) ac dc i) l pd)
    = (Return tt, mkWorld (mkRouter us (Some ns') ac dc i) l' pd)
    /\ forall j x, ns !! j = Some x ->
         ns' !! j
         = Some (mkNode (url x)
                   (status x && negb (bool_decide (j ∈ ts)
                                      && fails_offline (net j)))).
Proof.
  induction ts as [ | k rest IH ]; intros us ns ac dc i l pd Hnodup Hvalid.
  - exists ns, l. split; [ reflexivity | ].
    intros j [u s] Hj. rewrite Hj. cbn. by rewrite andb_true_r.
  - apply NoDup_cons in Hnodup as [Hnotin Hnodup].
    destruct (lookup_lt_is_Some_2 ns k) as [x Hx].
    { apply Hvalid. by left. }
    destruct (run_task_nodes net k data us ns ac dc i l pd x Hx) as [l1 Hrun].
    set (ns1 := <[k := mkNode (url x)
                          (status x && negb (fails_offline (net k)))]> ns) in *.
    destruct (IH us ns1 ac dc i l1 pd Hnodup) as (ns' & l' & Hrest & Hfinal).
    { intros j Hj. unfold ns1. rewrite length_insert. apply Hvalid. by right. }
    exists ns', l'. split.
    + cbn [map run_tasks]. unfold mbind, Py_bind, bind.
      by rewrite Hrun, Hrest.
    + intros j y Hj. destruct (decide (j = k)) as [-> | Hne].
      * rewrite (Hfinal k (mkNode (url x)
                             (status x && negb (fails_offline (net k))))).
        2:{ unfold ns1. apply list_lookup_insert_eq. by eapply lookup_lt_Some. }
        rewrite Hx in Hj. inversion Hj; subst y. cbn [url status].
        rewrite (bool_decide_eq_false_2 _ Hnotin).
        rewrite (bool_decide_eq_true_2 (k ∈ k :: rest)) by by left.
        cbn. by rewrite andb_true_r.
      * rewrite (Hfinal j y).
        2:{ unfold ns1. by rewrite list_lookup_insert_ne. }
        assert (Hdec : bool_decide (j ∈ rest) = bool_decide (j ∈ k :: rest)).
        { apply bool_decide_ext. rewrite elem_of_cons.
          split; [ by right | by intros [ ? | ? ] ]. }
        by rewrite Hdec.
Qed.

Lemma route_forkchoice_responded `{Runtime} net req us ns ac dc i l pd k nd
    text st headers :
  method req = "engine_forkchoiceUpdatedV1" ->
  get_execution_node (mkWorld (ready us ns ac dc i) l pd)
  = (Return k, mkWorld (ready us ns ac dc k) l pd) ->
  ns !! k = Some nd ->
  net k = Responded text st headers ->
  exists l',
    route net req (mkWorld (ready us ns ac dc i) l pd)
    = (Return tt,
       mkWorld (ready us ns ac dc k) l'
         (pd ++ map (fun j => (j, body req))
                  (nodes_where (other_alive k) 0 ns))).
Proof.
  intros Hm Hsel Hk Hnet.
  unfold route. rewrite Hm. cbn [String.eqb Ascii.eqb Bool.eqb].
  unfold mbind, Py_bind, bind. unfold get_execution_node in Hsel |- *.
  rewrite Hsel, Hnet. destruct nd as [u s]. unfold ready.
  erewrite on_node_run; [ | exact Hk | apply do_request_responded ].
  rewrite list_insert_id by done.
  unfold self_nodes, getattr. cbn [router nodes].
  rewrite create_tasks_run. unfold send, respond, emit, lift. cbn.
  by eexists.
Qed.

(** X16: what the broadcast of [engine_forkchoiceUpdatedV1] leaves.
    When the selected node answers and the created tasks have run, every
    other node whose forward failed with a connectivity-class error is
    marked offline, every other node keeps its flag, the selected node
    keeps its own, and the counters are untouched. *)
Theorem broadcast_marks_failed_nodes_offline `{Runtime} (req : Request)
    (us : list string) (ns : list NodeInstance) (ac dc i : nat)
    (l : list Event) :
  method req = "engine_forkchoiceUpdatedV1" ->
  ac <> 0 ->
  (exists k nd, ns !! k = Some nd /\ status nd = true) ->
  length ns <= recursion_limit ->
  exists k nd,
    ns !! k = Some nd /\ status nd = true
    /\ forall net text st headers,
         net k = Responded text st headers ->
         exists ns' l',
           serve net req (mkWorld (ready us ns ac dc i) l [])
           = (Return tt, mkWorld (ready us ns' ac dc k) l' [])
           /\ forall j x, ns !! j = Some x ->
                ns' !! j
                = Some (mkNode (url x)
                          (status x && negb (negb (j =? k)%nat
                                             && fails_offline (net j)))).
Proof.
  intros Hm Hac Halive Hlim.
  destruct (selection_returns_alive us ns ac dc l [] Hac i recursion_limit
              Halive Hlim) as (k & nd & Hsel & Hk & Hs).
  exists k, nd. split; [ done | ]. split; [ done | ].
  intros net text st headers Hnet.
  destruct (route_forkchoice_responded net req us ns ac dc i l [] k nd
              text st headers Hm Hsel Hk Hnet) as [l1 Hroute].
  unfold serve. rewrite Hroute. cbn [snd app]. unfold run_pending.
  cbn [pending router log]. unfold ready.
  destruct (run_tasks_nodes net (body req) (nodes_where (other_alive k) 0 ns)
              us ns (Some ac) (Some dc) (Some k) l1 [])
    as (ns' & l' & Hrun & Hfinal).
  { apply nodes_where_NoDup. }
  { intros j (_ & x & Hx & _)%other_alive_elem. by eapply lookup_lt_Some. }
  rewrite Hrun. cbn [snd]. exists ns', l'. split; [ reflexivity | ].
  intros j x Hj. rewrite (Hfinal j x Hj). do 2 f_equal.
  destruct (status x) eqn:Hsx; [ | done ]. cbn. do 2 f_equal.
  destruct (decide (j = k)) as [-> | Hne].
  - rewrite Nat.eqb_refl. cbn. apply bool_decide_eq_false_2.
    rewrite other_alive_elem. by intros [? _].
  - rewrite (proj2 (Nat.eqb_neq j k) Hne). cbn. apply bool_decide_eq_true_2.
    rewrite other_alive_elem. eauto.
Qed.

Lemma broadcast_marks_failed_nodes_offline_witness :
  let req := {| method := "engine_forkchoiceUpdatedV1"; body := "{}" |} in
  let ns := [mkNode "http://a" true; mkNode "http://b" true] in
  let us := ["http://a"; "http://b"] in
  (method req = "engine_forkchoiceUpdatedV1" /\ 2 <> 0
   /\ (exists k nd, ns !! k = Some nd /\ status nd = true)
   /\ length ns <= @recursion_limit example_runtime)
  /\ exists k nd,
       ns !! k = Some nd /\ status nd = true
       /\ forall net text st headers,
            net k = Responded text st headers ->
            exists ns' l',
              @serve example_runtime net req (mkWorld (ready us ns 2 0 0) [] [])
              = (Return tt, mkWorld (ready us ns' 2 0 k) l' [])
              /\ forall j x, ns !! j = Some x ->
                   ns' !! j
                   = Some (mkNode (url x)
                             (status x && negb (negb (j =? k)%nat
                                                && fails_offline (net j)))).
Proof.
  cbn zeta.
  assert (Halive : exists k nd,
            [mkNode "http://a" true; mkNode "http://b" true] !! k = Some nd
            /\ status nd = true).
  { exists 0, (mkNode "http://a" true). split; reflexivity. }
  split; [ split; [ reflexivity | split; [ lia | split;
            [ exact Halive | cbn; lia ] ] ] | ].
  apply (@broadcast_marks_failed_nodes_offline example_runtime
           {| method := "engine_forkchoiceUpdatedV1"; body := "{}" |}
           ["http://a"; "http://b"]
           [mkNode "http://a" true; mkNode "http://b" true] 2 0 0 []);
    [ reflexivity | lia | exact Halive | cbn; lia ].
Defined.
